(** * Guardrail pipeline of the LLM grading system

    A shallow embedding of [schemas.py] (the [GradingResult] schema and
    [calculate_letter_grade]) and of [guardrails.py] (input guard, output
    guard, consistency checker, policy enforcer, fallback generator, rate
    limiter and the orchestrator [validate_and_grade]), followed by the
    properties of the pipeline; then of the rest of the two files
    ([get_percentage], the [ExamGradingReport] schema,
    [check_grade_inflation], [should_retry]), of [create_exam_report] of
    [crew.py] and of [map_question_to_dataset] of [main.py], with their
    properties.

    Conventions of the embedding.
    - A Python value that travels through a [Dict[str, Any]] is a [pyval].
    - A Python [float] is modelled by its exact value: a rational, or one of
      the three special values.  Comparisons are therefore exact, as they
      are in Python; additions and subtractions are computed without
      rounding, and so are the divisions and multiplications of the
      averages and percentages.
    - A Python [str] is a [string] whose characters are the code points
      0..255.
    - A [dict] is an association list in insertion order.
    - A call that may raise returns an [outcome]; a function whose only
      exception is the [ZeroDivisionError] of a division returns an
      [option].

    [GradingResult.to_display_format], the calls of the crew to the model
    ([grade_single_question], [grade_multiple_questions]), the tools and
    the command line of [main.py] are not embedded: no property below is
    about them. *)

From Stdlib Require Import ZArith QArith Qabs Lqa Lia List Ascii String Bool.
From Stdlib Require Import DecimalString.
From stdpp Require Import base option list strings gmap.

Set Warnings "-register-all".

Open Scope string_scope.
Open Scope Z_scope.
Open Scope list_scope.

(** ** Python values *)
Module Py.

(** *** Floats by value *)

Inductive pyfloat : Type :=
| Fin (q : Q)
| PInf
| NInf
| NaN.

Definition of_Z (z : Z) : pyfloat := Fin (inject_Z z).

Definition Qltb (a b : Q) : bool := negb (Qle_bool b a).

(** [x < y], [x <= y] and [x == y] on floats; every comparison with a NaN
    is false. *)
Definition fltb (x y : pyfloat) : bool :=
  match x, y with
  | NaN, _ | _, NaN => false
  | Fin a, Fin b => Qltb a b
  | NInf, NInf => false
  | NInf, _ => true
  | Fin _, PInf => true
  | _, _ => false
  end.

Definition fleb (x y : pyfloat) : bool :=
  match x, y with
  | NaN, _ | _, NaN => false
  | Fin a, Fin b => Qle_bool a b
  | NInf, _ => true
  | _, PInf => true
  | _, _ => false
  end.

Definition feqb (x y : pyfloat) : bool :=
  match x, y with
  | Fin a, Fin b => Qeq_bool a b
  | PInf, PInf => true
  | NInf, NInf => true
  | _, _ => false
  end.

Definition fadd (x y : pyfloat) : pyfloat :=
  match x, y with
  | NaN, _ | _, NaN => NaN
  | Fin a, Fin b => Fin (a + b)
  | PInf, NInf | NInf, PInf => NaN
  | PInf, _ | _, PInf => PInf
  | NInf, _ | _, NInf => NInf
  end.

Definition fneg (x : pyfloat) : pyfloat :=
  match x with
  | Fin a => Fin (- a)
  | PInf => NInf
  | NInf => PInf
  | NaN => NaN
  end.

Definition fsub (x y : pyfloat) : pyfloat := fadd x (fneg y).

Definition fabs (x : pyfloat) : pyfloat :=
  match x with
  | Fin a => Fin (Qabs a)
  | PInf | NInf => PInf
  | NaN => NaN
  end.

(** *** Values *)

Inductive pyval : Type :=
| VNone
| VBool (b : bool)
| VInt (z : Z)
| VFloat (x : pyfloat)
| VStr (s : string)
| VList (l : list pyval)
| VDict (d : list (string * pyval)).

Definition dict : Type := list (string * pyval).

(** [d.get(key)]; [key in d] is [dict_get key d <> None]. *)
Fixpoint dict_get (key : string) (d : dict) : option pyval :=
  match d with
  | [] => None
  | (k, v) :: d' => if String.eqb k key then Some v else dict_get key d'
  end.

(** [d.get(key, default)]. *)
Definition dict_get_default (key : string) (default : pyval) (d : dict) : pyval :=
  match dict_get key d with Some v => v | None => default end.

(** [d.values()]. *)
Definition dict_values (d : dict) : list pyval := map snd d.

(** [d[key] = v] on a dict that is being built. *)
Fixpoint dict_set (key : string) (v : pyval) (d : dict) : dict :=
  match d with
  | [] => [(key, v)]
  | (k, w) :: d' =>
      if String.eqb k key then (k, v) :: d' else (k, w) :: dict_set key v d'
  end.

(** [isinstance(v, int)]: a [bool] is an [int]. *)
Definition isinstance_int (v : pyval) : bool :=
  match v with VInt _ | VBool _ => true | _ => false end.

Definition Z_of_bool (b : bool) : Z := if b then 1 else 0.

(** The value of a number; [None] for what is not a number. *)
Definition num_value (v : pyval) : option pyfloat :=
  match v with
  | VBool b => Some (of_Z (Z_of_bool b))
  | VInt z => Some (of_Z z)
  | VFloat x => Some x
  | _ => None
  end.

(** [a + b] on numbers: an [int] when both sides are integral, a [float]
    otherwise; [None] is the [TypeError] of the other operand types that
    [sum] can meet when it starts from [0]. *)
Definition py_add (a b : pyval) : option pyval :=
  match a, b with
  | (VInt _ | VBool _), (VInt _ | VBool _) =>
      match a, b with
      | VInt x, VInt y => Some (VInt (x + y))
      | VInt x, VBool y => Some (VInt (x + Z_of_bool y))
      | VBool x, VInt y => Some (VInt (Z_of_bool x + y))
      | VBool x, VBool y => Some (VInt (Z_of_bool x + Z_of_bool y))
      | _, _ => None
      end
  | _, _ =>
      match num_value a, num_value b with
      | Some x, Some y => Some (VFloat (fadd x y))
      | _, _ => None
      end
  end.

(** [sum(l)]: left to right, from the integer [0]. *)
Definition py_sum (l : list pyval) : option pyval :=
  fold_left (fun acc v => match acc with Some a => py_add a v | None => None end)
            l (Some (VInt 0)).

(** [v == n] for an integer literal [n]: never raises, false on a value
    that is not a number. *)
Definition py_eq_int (v : pyval) (n : Z) : bool :=
  match num_value v with
  | Some x => feqb x (of_Z n)
  | None => false
  end.

(** [v == s] for a string literal [s]. *)
Definition py_eq_str (v : pyval) (s : string) : bool :=
  match v with VStr t => String.eqb t s | _ => false end.

(** [v is None]. *)
Definition is_none (v : pyval) : bool :=
  match v with VNone => true | _ => false end.

(** [v > n] for an integer literal [n]; [None] is the [TypeError] of a
    value that does not order against an [int]. *)
Definition py_gt_int (v : pyval) (n : Z) : option bool :=
  match num_value v with
  | Some x => Some (fltb (of_Z n) x)
  | None => None
  end.

(** [str(n)] for an [int]. *)
Definition str_of_Z (z : Z) : string := NilZero.string_of_int (Z.to_int z).

Definition str_of_nat (n : nat) : string := str_of_Z (Z.of_nat n).

(** *** Strings *)

Definition code (c : ascii) : N := N_of_ascii c.

(** [c.isspace()] on the code points below 256. *)
Definition isspace (c : ascii) : bool :=
  let n := code c in
  ((9 <=? n) && (n <=? 13) || (28 <=? n) && (n <=? 32)
   || (n =? 133) || (n =? 160))%N.

(** [c.lower()] on the code points below 256. *)
Definition lower_char (c : ascii) : ascii :=
  let n := code c in
  if ((65 <=? n) && (n <=? 90)
      || (192 <=? n) && (n <=? 222) && negb (n =? 215))%N
  then ascii_of_N (n + 32) else c.

Fixpoint lower (s : string) : string :=
  match s with
  | EmptyString => EmptyString
  | String c s' => String (lower_char c) (lower s')
  end.

Fixpoint lstrip (s : string) : string :=
  match s with
  | EmptyString => EmptyString
  | String c s' => if isspace c then lstrip s' else s
  end.

Fixpoint rstrip (s : string) : string :=
  match s with
  | EmptyString => EmptyString
  | String c s' =>
      match rstrip s' with
      | EmptyString => if isspace c then EmptyString else String c EmptyString
      | r => String c r
      end
  end.

(** [s.strip()]. *)
Definition strip (s : string) : string := rstrip (lstrip s).

(** [pat in s]. *)
Fixpoint contains (pat s : string) : bool :=
  String.prefix pat s
  || match s with
     | EmptyString => false
     | String _ s' => contains pat s'
     end.

(** A line break, and the three markers that start a message of the
    orchestrator (each stands in the string as its UTF-8 bytes). *)
Definition nl : string := String (ascii_of_N 10) EmptyString.
Definition cross_mark : string := "❌".
Definition check_mark : string := "✅".
Definition warning_sign : string := "⚠️".

(** *** Exceptions and outcomes *)

(** One entry of a pydantic [ValidationError]: what was wrong with a
    field. *)
Inductive field_error : Type :=
| Missing
| WrongType
| NotGe (limit : Z)
| NotLe (limit : Z)
| MinLength (limit : nat)
| ValueError (msg : string)
| TypeErrorIn.

Inductive exn : Type :=
| ValidationError (errors : list (string * field_error))
| TypeError
| KeyError (key : string)
| IndexError.

Inductive outcome (A : Type) : Type :=
| Returned (a : A)
| Raised (e : exn).

Arguments Returned {A} a.
Arguments Raised {A} e.

Definition bind {A B : Type} (m : outcome A) (k : A -> outcome B) : outcome B :=
  match m with
  | Returned a => k a
  | Raised e => Raised e
  end.

(** *** What the embedding takes from the Python runtime and from pydantic

    [py_str] is the builtin [str] (and the rendering of a value inside an
    f-string), [exn_str] is [str(e)] of an exception.  The [validate_*]
    functions are pydantic's type validation for the annotations [int],
    [float], [bool], [str], [dict] and [List[str]]: which values of another
    type they coerce depends on the pydantic version, and is left open; a
    value that already has the annotated type is accepted as it is.
    [wraps_type_error] tells whether a [TypeError] raised inside a validator
    is reported as an entry of the [ValidationError] (pydantic 1) or leaves
    the constructor as it is (pydantic 2). *)
Class Runtime : Type := {
  py_str : pyval -> string;
  exn_str : exn -> string;
  validate_int : pyval -> option Z;
  validate_float : pyval -> option pyfloat;
  validate_bool : pyval -> option bool;
  validate_str : pyval -> option string;
  validate_dict : pyval -> option dict;
  validate_str_list : pyval -> option (list string);
  wraps_type_error : bool;
  py_str_str : forall s, py_str (VStr s) = s;
  validate_int_int : forall z, validate_int (VInt z) = Some z;
  validate_float_float : forall x, validate_float (VFloat x) = Some x;
  validate_bool_bool : forall b, validate_bool (VBool b) = Some b;
  validate_str_str : forall s, validate_str (VStr s) = Some s;
  validate_dict_dict : forall d, validate_dict (VDict d) = Some d;
  validate_str_list_list :
    forall l, validate_str_list (VList (map VStr l)) = Some l
}.

End Py.

Import Py.

(** ** schemas.py *)
Module Schemas.

Inductive ErrorType : Type :=
| wrong_calculation
| wrong_methodology
| missing_data
| incomplete_work
| no_error.

(** The members of the [Literal] of [error_type]. *)
Definition ErrorType_of_string (s : string) : option ErrorType :=
  if String.eqb s "wrong_calculation" then Some wrong_calculation
  else if String.eqb s "wrong_methodology" then Some wrong_methodology
  else if String.eqb s "missing_data" then Some missing_data
  else if String.eqb s "incomplete_work" then Some incomplete_work
  else if String.eqb s "no_error" then Some no_error
  else None.

(** A [GradingResult] object: the attributes in the order of the class
    body.  The record carries no invariant of its own; what the
    constructor checks is [GradingResult_init] below. *)
Record GradingResult : Type := {
  question_number : Z;
  points_earned : pyfloat;
  points_possible : Z;
  is_correct : bool;
  student_answer : string;
  correct_answer : string;
  points_breakdown : dict;
  error_type : option ErrorType;
  specific_errors : list string;
  what_was_correct : list string;
  feedback : string;
  data_references : list string
}.

(** The result of validating one field. *)
Inductive checked (A : Type) : Type :=
| Good (a : A)
| Bad (e : field_error).

Arguments Good {A} a.
Arguments Bad {A} e.

Definition and_then {A B : Type} (c : checked A) (k : A -> checked B) : checked B :=
  match c with
  | Good a => k a
  | Bad e => Bad e
  end.

(** A field declared with [Field(...)]: required. *)
Definition required {A : Type} (key : string) (kwargs : dict)
    (k : pyval -> checked A) : checked A :=
  match dict_get key kwargs with
  | Some v => k v
  | None => Bad Missing
  end.

(** A field with a default: the default is taken as it is, unvalidated. *)
Definition optional {A : Type} (key : string) (kwargs : dict) (default : A)
    (k : pyval -> checked A) : checked A :=
  match dict_get key kwargs with
  | Some v => k v
  | None => Good default
  end.

Definition typed {A : Type} (validate : pyval -> option A) (v : pyval) : checked A :=
  match validate v with
  | Some a => Good a
  | None => Bad WrongType
  end.

(** The entry a field adds to the [ValidationError]. *)
Definition entry {A : Type} (key : string) (c : checked A)
  : list (string * field_error) :=
  match c with
  | Good _ => []
  | Bad e => [(key, e)]
  end.

(** [values] after a field: a field that failed is not in it. *)
Definition record_value {A : Type} (key : string) (inj : A -> pyval)
    (c : checked A) (values : dict) : dict :=
  match c with
  | Good a => values ++ [(key, inj a)]
  | Bad _ => values
  end.

(** The literal [0.01], by the value of the double it denotes. *)
Definition tolerance : pyfloat :=
  Fin (5764607523034235 # 576460752303423488).

(** [abs(total - expected) > 0.01]; [None] when an operand is not a
    number. *)
Definition breakdown_mismatch (total expected : pyval) : option bool :=
  match num_value total, num_value expected with
  | Some t, Some e => Some (fltb tolerance (fabs (fsub t e)))
  | _, _ => None
  end.

Section Constructor.
Context `{RT : Runtime}.

(** [parse_student_answer] and [parse_correct_answer] (the two bodies are
    the same): the [pre=True] validator of the two answer fields. *)
Definition parse_answer (v : pyval) : pyval :=
  match v with
  | VDict d => dict_get_default "value" (VStr (py_str v)) d
  | _ => v
  end.

(** [validate_points]. *)
Definition validate_points (v : pyfloat) (values : dict) : checked pyfloat :=
  match num_value (dict_get_default "points_possible" (VInt 10) values) with
  | Some limit =>
      if fltb limit v
      then Bad (ValueError "Points earned cannot exceed points possible")
      else Good v
  | None => Bad TypeErrorIn
  end.

(** [validate_breakdown]. *)
Definition validate_breakdown (v : dict) (values : dict) : checked dict :=
  match py_sum (dict_values v) with
  | Some total =>
      let expected := dict_get_default "points_earned" (VInt 0) values in
      match breakdown_mismatch total expected with
      | Some true =>
          Bad (ValueError ("Points breakdown (" +:+ py_str total
                           +:+ ") must sum to points_earned ("
                           +:+ py_str expected +:+ ")"))
      | Some false => Good v
      | None => Bad TypeErrorIn
      end
  | None => Bad TypeErrorIn
  end.

(** [Field(..., ge=lo, le=hi)] on an [int]. *)
Definition int_range (lo hi : Z) (z : Z) : checked Z :=
  if z <? lo then Bad (NotGe lo)
  else if hi <? z then Bad (NotLe hi)
  else Good z.

(** [Field(..., ge=lo, le=hi)] on a [float]. *)
Definition float_range (lo hi : Z) (x : pyfloat) : checked pyfloat :=
  if negb (fleb (of_Z lo) x) then Bad (NotGe lo)
  else if negb (fleb x (of_Z hi)) then Bad (NotLe hi)
  else Good x.

(** [Field(..., min_length=n)] on a [str]. *)
Definition min_length (n : nat) (s : string) : checked string :=
  if (String.length s <? n)%nat then Bad (MinLength n) else Good s.

(** [Optional[Literal[...]]]. *)
Definition validate_error_type (v : pyval) : checked (option ErrorType) :=
  match v with
  | VNone => Good None
  | VStr s =>
      match ErrorType_of_string s with
      | Some e => Good (Some e)
      | None => Bad WrongType
      end
  | _ => Bad WrongType
  end.

(** The twelve fields, in the order of the class body.  A field with a
    validator takes [values], the fields validated before it. *)
Definition field_question_number (kwargs : dict) : checked Z :=
  required "question_number" kwargs (fun v =>
    and_then (typed validate_int v) (int_range 1 10)).

Definition field_points_earned (kwargs values : dict) : checked pyfloat :=
  required "points_earned" kwargs (fun v =>
    and_then (and_then (typed validate_float v) (float_range 0 10))
             (fun x => validate_points x values)).

Definition field_points_possible (kwargs : dict) : checked Z :=
  optional "points_possible" kwargs 10 (typed validate_int).

Definition field_is_correct (kwargs : dict) : checked bool :=
  required "is_correct" kwargs (typed validate_bool).

Definition field_student_answer (kwargs : dict) : checked string :=
  required "student_answer" kwargs (fun v => typed validate_str (parse_answer v)).

Definition field_correct_answer (kwargs : dict) : checked string :=
  required "correct_answer" kwargs (fun v => typed validate_str (parse_answer v)).

Definition field_points_breakdown (kwargs values : dict) : checked dict :=
  required "points_breakdown" kwargs (fun v =>
    and_then (typed validate_dict v) (fun d => validate_breakdown d values)).

Definition field_error_type (kwargs : dict) : checked (option ErrorType) :=
  optional "error_type" kwargs None validate_error_type.

Definition field_specific_errors (kwargs : dict) : checked (list string) :=
  optional "specific_errors" kwargs [] (typed validate_str_list).

Definition field_what_was_correct (kwargs : dict) : checked (list string) :=
  optional "what_was_correct" kwargs [] (typed validate_str_list).

Definition field_feedback (kwargs : dict) : checked string :=
  required "feedback" kwargs (fun v =>
    and_then (typed validate_str v) (min_length 50)).

Definition field_data_references (kwargs : dict) : checked (list string) :=
  optional "data_references" kwargs [] (typed validate_str_list).

(** The object, when every field is good. *)
Definition construct
    (f_question_number : checked Z) (f_points_earned : checked pyfloat)
    (f_points_possible : checked Z) (f_is_correct : checked bool)
    (f_student_answer f_correct_answer : checked string)
    (f_points_breakdown : checked dict)
    (f_error_type : checked (option ErrorType))
    (f_specific_errors f_what_was_correct : checked (list string))
    (f_feedback : checked string)
    (f_data_references : checked (list string)) : option GradingResult :=
  match f_question_number, f_points_earned, f_points_possible,
        f_is_correct, f_student_answer, f_correct_answer,
        f_points_breakdown, f_error_type, f_specific_errors,
        f_what_was_correct, f_feedback, f_data_references with
  | Good qn, Good pe, Good pp, Good ic, Good sa, Good ca,
    Good pb, Good et, Good se, Good wc, Good fb, Good dr =>
      Some {| question_number := qn; points_earned := pe;
              points_possible := pp; is_correct := ic;
              student_answer := sa; correct_answer := ca;
              points_breakdown := pb; error_type := et;
              specific_errors := se; what_was_correct := wc;
              feedback := fb; data_references := dr |}
  | _, _, _, _, _, _, _, _, _, _, _, _ => None
  end.

(** A [TypeError] raised inside a validator leaves the constructor when
    pydantic does not wrap it. *)
Definition type_error_escapes {A : Type} (c : checked A) : bool :=
  negb wraps_type_error
  && match c with
     | Bad TypeErrorIn => true
     | _ => false
     end.

(** The constructor of [GradingResult], called on a dict of keyword
    arguments: the fields are validated in the order of the class body,
    each validator sees in [values] the fields validated before it, the
    errors of all fields are collected.  (No validator reads [values]
    after [points_breakdown], so the bookkeeping stops there.) *)
Definition GradingResult_init (kwargs : dict) : outcome GradingResult :=
  let values : dict := [] in
  let f_question_number := field_question_number kwargs in
  let values := record_value "question_number" VInt f_question_number values in
  let f_points_earned := field_points_earned kwargs values in
  let values := record_value "points_earned" VFloat f_points_earned values in
  let f_points_possible := field_points_possible kwargs in
  let values := record_value "points_possible" VInt f_points_possible values in
  let f_is_correct := field_is_correct kwargs in
  let values := record_value "is_correct" VBool f_is_correct values in
  let f_student_answer := field_student_answer kwargs in
  let values := record_value "student_answer" VStr f_student_answer values in
  let f_correct_answer := field_correct_answer kwargs in
  let values := record_value "correct_answer" VStr f_correct_answer values in
  let f_points_breakdown := field_points_breakdown kwargs values in
  let f_error_type := field_error_type kwargs in
  let f_specific_errors := field_specific_errors kwargs in
  let f_what_was_correct := field_what_was_correct kwargs in
  let f_feedback := field_feedback kwargs in
  let f_data_references := field_data_references kwargs in
  let errors :=
    entry "question_number" f_question_number
    ++ entry "points_earned" f_points_earned
    ++ entry "points_possible" f_points_possible
    ++ entry "is_correct" f_is_correct
    ++ entry "student_answer" f_student_answer
    ++ entry "correct_answer" f_correct_answer
    ++ entry "points_breakdown" f_points_breakdown
    ++ entry "error_type" f_error_type
    ++ entry "specific_errors" f_specific_errors
    ++ entry "what_was_correct" f_what_was_correct
    ++ entry "feedback" f_feedback
    ++ entry "data_references" f_data_references in
  if type_error_escapes f_points_earned
     || type_error_escapes f_points_breakdown
  then Raised TypeError
  else
    match construct f_question_number f_points_earned f_points_possible
            f_is_correct f_student_answer f_correct_answer
            f_points_breakdown f_error_type f_specific_errors
            f_what_was_correct f_feedback f_data_references with
    | Some result => Returned result
    | None => Raised (ValidationError errors)
    end.

End Constructor.

(** The percentage thresholds, as [calculate_letter_grade] tests them:
    [percentage >= n]. *)
Definition ge_int (percentage : pyfloat) (n : Z) : bool := fleb (of_Z n) percentage.

Definition calculate_letter_grade (percentage : pyfloat) : string :=
  if ge_int percentage 93 then "A"
  else if ge_int percentage 90 then "A-"
  else if ge_int percentage 87 then "B+"
  else if ge_int percentage 83 then "B"
  else if ge_int percentage 80 then "B-"
  else if ge_int percentage 77 then "C+"
  else if ge_int percentage 73 then "C"
  else if ge_int percentage 70 then "C-"
  else if ge_int percentage 60 then "D"
  else "F".

End Schemas.

Import Schemas.

(** ** guardrails.py *)
Module Guardrails.

(** A [datetime], by its POSIX time in microseconds; [ts.timestamp()] is
    that time in seconds, and one hour is [hour] microseconds. *)
Definition datetime : Type := Z.
Definition hour : Z := 3600 * 1000000.

(** [RateLimitGuardrails.submission_history]. *)
Abbreviation history := (gmap string (list datetime)).

(** The integer behind a value for which [isinstance(v, int)] holds. *)
Definition int_of (v : pyval) : Z :=
  match v with
  | VInt z => z
  | VBool b => Z_of_bool b
  | _ => 0
  end.

Definition dangerous_patterns : list string :=
  [ "ignore previous instructions";
    "disregard all";
    "forget everything";
    "system:";
    "assistant:" ].

Definition flag_marker : string := "[FLAGGED: potential prompt injection] ".

(** The loop of [sanitize_student_answer]: the first pattern found flags
    the answer and ends the loop. *)
Fixpoint sanitize_loop (patterns : list string) (sanitized : string) : string :=
  match patterns with
  | [] => sanitized
  | pattern :: rest =>
      if contains (lower pattern) (lower sanitized)
      then flag_marker +:+ sanitized
      else sanitize_loop rest sanitized
  end.

(** [InputGuardrails.sanitize_student_answer]. *)
Definition sanitize_student_answer (answer : string) : string :=
  strip (sanitize_loop dangerous_patterns answer).

Definition placeholder_indicators : list string :=
  [ "[insert"; "TODO"; "FIXME"; "xxx"; "..." ].

(** [any(v > 0 for v in values)]: stops at the first value above zero. *)
Fixpoint any_positive (values : list pyval) : outcome bool :=
  match values with
  | [] => Returned false
  | v :: rest =>
      match py_gt_int v 0 with
      | Some true => Returned true
      | Some false => any_positive rest
      | None => Raised TypeError
      end
  end.

Definition when (b : bool) (msg : string) : list string :=
  if b then [msg] else [].

Definition is_empty {A : Type} (l : list A) : bool :=
  match l with [] => true | _ => false end.

(** [BusinessRulesGuardrails.enforce_grading_policies]. *)
Definition enforce_grading_policies (result : GradingResult)
  : bool * list string :=
  let violations :=
    (* Policy 1 *)
    when (match error_type result with
          | Some wrong_calculation =>
              py_eq_int (dict_get_default "showing_work" (VInt 0)
                           (points_breakdown result)) 0
          | _ => false
          end)
         "Policy violation: Wrong calculation with no partial credit for methodology"
    (* Policy 2 *)
    ++ when (fltb (points_earned result) (of_Z (points_possible result))
             && (String.length (feedback result) <? 50)%nat)
         ("Policy violation: Incorrect answer requires detailed feedback (min 50 chars, got "
          +:+ str_of_nat (String.length (feedback result)) +:+ ")")
    (* Policy 3 *)
    ++ when (match error_type result with
             | Some wrong_calculation | Some missing_data =>
                 is_empty (data_references result)
             | _ => false
             end)
         "Policy violation: Data-related error must include data_references"
    (* Policy 4 *)
    ++ when (feqb (points_earned result) (of_Z 0)
             && (length (specific_errors result) <? 2)%nat)
         "Policy violation: Zero points requires at least 2 specific errors" in
  (is_empty violations, violations).

(** [RateLimitGuardrails.check_rate_limit]: [now] and [now'] are the two
    readings of the clock, the first is what gets recorded and the second
    gives [hour_ago].  Returns the history after the call and the pair
    [(allowed, message)]. *)
Definition check_rate_limit (submission_history : history)
    (now now' : datetime) (student_id : string)
    (max_submissions_per_hour : Z) : history * (bool * string) :=
  let hour_ago := now' - hour in
  let submission_history :=
    match submission_history !! student_id with
    | None => <[student_id := []]> submission_history
    | Some _ => submission_history
    end in
  let stored := default [] (submission_history !! student_id) in
  let recent := filter (fun ts => hour_ago < ts) stored in
  if max_submissions_per_hour <=? Z.of_nat (length recent)
  then (submission_history,
        (false,
         "Rate limit exceeded: " +:+ str_of_nat (length recent)
         +:+ " submissions in last hour (max "
         +:+ str_of_Z max_submissions_per_hour +:+ ")"))
  else (<[student_id := stored ++ [now]]> submission_history,
        (true,
         "Rate limit OK: " +:+ str_of_Z (Z.of_nat (length recent) + 1)
         +:+ "/" +:+ str_of_Z max_submissions_per_hour
         +:+ " submissions this hour")).

Section WithRuntime.
Context `{RT : Runtime}.

(** [InputGuardrails.validate_student_submission]. *)
Definition validate_student_submission (submission : dict)
  : bool * list string :=
  let missing (field : string) : list string :=
    match dict_get field submission with
    | None | Some VNone => ["Missing required field: " +:+ field]
    | Some _ => []
    end in
  let errors :=
    missing "question_number" ++ missing "student_answer"
    ++ match dict_get "question_number" submission with
       | Some qnum =>
           when (negb (isinstance_int qnum)
                 || (int_of qnum <? 1) || (10 <? int_of qnum))
                ("Invalid question_number: must be integer 1-10, got "
                 +:+ py_str qnum)
       | None => []
       end
    ++ match dict_get "student_answer" submission with
       | Some answer =>
           let missing_or_none :=
             when (py_eq_str answer "" || is_none answer)
                  "student_answer is missing or None" in
           match answer with
           | VStr a =>
               if (String.length (strip a) =? 0)%nat
               then ["student_answer cannot be empty"]
               else missing_or_none
           | _ => missing_or_none
           end
       | None => []
       end
    ++ match dict_get "student_answer" submission with
       | Some answer =>
           let answer_str := py_str answer in
           when (5000 <? String.length answer_str)%nat
                ("student_answer too long ("
                 +:+ str_of_nat (String.length answer_str)
                 +:+ " chars, max 5000)")
       | None => []
       end in
  (is_empty errors, errors).

(** The loop over [placeholder_indicators]: every indicator found adds an
    error. *)
Definition placeholder_errors (feedback : string) : list string :=
  flat_map (fun indicator =>
              when (contains (lower indicator) (lower feedback))
                   ("Feedback contains placeholder text: " +:+ indicator))
           placeholder_indicators.

(** [OutputGuardrails.validate_llm_response]. *)
Definition validate_llm_response (response : dict) (question_number : pyval)
  : outcome (bool * list string * option GradingResult) :=
  match GradingResult_init response with
  | Raised (ValidationError e) =>
      Returned (false,
                ["Pydantic validation failed: " +:+ exn_str (ValidationError e)],
                None)
  | Raised e =>
      Returned (false, ["Failed to parse response: " +:+ exn_str e], None)
  | Returned result =>
      let e_number :=
        when (negb (py_eq_int question_number (Schemas.question_number result)))
             ("Question number mismatch: expected " +:+ py_str question_number
              +:+ ", got " +:+ str_of_Z (Schemas.question_number result)) in
      let e_points :=
        when (fltb (of_Z (points_possible result)) (points_earned result))
             ("Points earned (" +:+ py_str (VFloat (points_earned result))
              +:+ ") exceeds points possible ("
              +:+ str_of_Z (points_possible result) +:+ ")") in
      match py_sum (dict_values (points_breakdown result)) with
      | None => Raised TypeError
      | Some breakdown_sum =>
          match breakdown_mismatch breakdown_sum
                  (VFloat (points_earned result)) with
          | None => Raised TypeError
          | Some mismatch =>
              let e_breakdown :=
                when mismatch
                     ("Points breakdown (" +:+ py_str breakdown_sum
                      +:+ ") doesn't match points earned ("
                      +:+ py_str (VFloat (points_earned result)) +:+ ")") in
              let e_feedback :=
                when (String.length (feedback result) <? 20)%nat
                     ("Feedback too short ("
                      +:+ str_of_nat (String.length (feedback result))
                      +:+ " chars, min 20)") in
              let errors :=
                e_number ++ e_points ++ e_breakdown ++ e_feedback
                ++ placeholder_errors (feedback result) in
              Returned (is_empty errors, errors, Some result)
          end
      end
  end.

(** [OutputGuardrails.check_consistency]. *)
Definition check_consistency (result : GradingResult)
  : outcome (bool * list string) :=
  let w_low :=
    when (is_correct result && fltb (points_earned result) (of_Z 8))
         ("Marked as correct but only " +:+ py_str (VFloat (points_earned result))
          +:+ "/10 points - should be at least 8") in
  let w_no_errors :=
    when (negb (is_correct result) && is_empty (specific_errors result))
         "Marked as incorrect but no specific_errors provided" in
  let w_no_error :=
    when (match error_type result with Some no_error => true | _ => false end
          && negb (is_correct result))
         "error_type is 'no_error' but is_correct is False" in
  bind (if feqb (points_earned result) (of_Z 0)
        then any_positive (dict_values (points_breakdown result))
        else Returned false)
       (fun nonzero =>
          let warnings :=
            w_low ++ w_no_errors ++ w_no_error
            ++ when nonzero "Points earned is 0 but breakdown has non-zero values" in
          Returned (is_empty warnings, warnings)).

(** [ErrorHandlingGuardrails.create_fallback_result]: the arguments are
    handed to the constructor as the callers give them. *)
Definition create_fallback_result (question_number student_answer : pyval)
    (error_message : string) : outcome GradingResult :=
  GradingResult_init
    [ ("question_number", question_number);
      ("points_earned", VFloat (of_Z 0));
      ("points_possible", VInt 10);
      ("is_correct", VBool false);
      ("student_answer", student_answer);
      ("correct_answer", VStr "[REQUIRES MANUAL REVIEW]");
      ("points_breakdown",
        VDict [ ("correct_answer", VInt 0);
                ("showing_work", VInt 0);
                ("interpretation", VInt 0) ]);
      ("error_type", VStr "incomplete_work");
      ("specific_errors",
        VList [ VStr "Automated grading failed";
                VStr ("Error: " +:+ error_message);
                VStr "This submission requires manual review" ]);
      ("what_was_correct", VList []);
      ("feedback",
        VStr ("This submission could not be automatically graded due to a system error."
              +:+ nl +:+ nl
              +:+ "Error details: " +:+ error_message +:+ nl +:+ nl
              +:+ "This answer has been flagged for manual review by an instructor. You will receive "
              +:+ nl
              +:+ "your grade and feedback within 24 hours." +:+ nl +:+ nl
              +:+ "If you believe this is an error, please contact your instructor."));
      ("data_references", VList [VStr "[MANUAL REVIEW REQUIRED]"]) ].

(** [d[key]]. *)
Definition getitem (key : string) (d : dict) : outcome pyval :=
  match dict_get key d with
  | Some v => Returned v
  | None => Raised (KeyError key)
  end.

(** [errors[0]]. *)
Definition first (errors : list string) : outcome string :=
  match errors with
  | e :: _ => Returned e
  | [] => Raised IndexError
  end.

(** The rate-limiting step of [validate_and_grade]: the history after it,
    and the message of the denial if the submission was denied.  A
    [student_id] that is [None] or empty skips the step. *)
Definition rate_limit_step (submission_history : history)
    (now now' : datetime) (student_id : option string)
  : history * option string :=
  match student_id with
  | Some sid =>
      if String.eqb sid "" then (submission_history, None)
      else
        let '(h, (allowed, msg)) :=
          check_rate_limit submission_history now now' sid 20 in
        (h, if allowed then None else Some msg)
  | None => (submission_history, None)
  end.

(** [GradingGuardrails.validate_and_grade], with the history of its rate
    limiter before and after the call. *)
Definition validate_and_grade (submission_history : history)
    (now now' : datetime) (submission llm_response : dict)
    (student_id : option string)
  : history * outcome (bool * GradingResult * list string) :=
  let '(h, denied) :=
    rate_limit_step submission_history now now' student_id in
  (h,
   match denied with
   | Some msg =>
       (* Step 1: rate limiting *)
       let messages := [cross_mark +:+ " " +:+ msg] in
       bind (create_fallback_result
               (dict_get_default "question_number" (VInt 0) submission)
               (VStr (py_str (dict_get_default "student_answer" (VStr "") submission)))
               "Rate limit exceeded")
            (fun fallback => Returned (false, fallback, messages))
   | None =>
       (* Step 2: input validation *)
       let '(valid_input, input_errors) :=
         validate_student_submission submission in
       if negb valid_input
       then
         let messages :=
           map (fun err => cross_mark +:+ " Input: " +:+ err) input_errors in
         bind (first input_errors) (fun err0 =>
         bind (create_fallback_result
                 (dict_get_default "question_number" (VInt 0) submission)
                 (VStr (py_str (dict_get_default "student_answer" (VStr "") submission)))
                 ("Invalid submission: " +:+ err0))
              (fun fallback => Returned (false, fallback, messages)))
       else
         let messages := [check_mark +:+ " Input validation passed"] in
         (* Step 3: output validation *)
         bind (getitem "question_number" submission) (fun qnum =>
         bind (validate_llm_response llm_response qnum)
              (fun '(valid_output, output_errors, result) =>
         match valid_output, result with
         | true, Some result =>
             let messages :=
               messages ++ [check_mark +:+ " Output validation passed"] in
             (* Step 4: consistency checks *)
             bind (check_consistency result)
                  (fun '(consistent, consistency_warnings) =>
             let messages :=
               messages
               ++ (if negb consistent
                   then map (fun warn => warning_sign +:+ "  Consistency: " +:+ warn)
                            consistency_warnings
                   else []) in
             (* Step 5: business rules *)
             let '(compliant, violations) := enforce_grading_policies result in
             let messages :=
               messages
               ++ (if negb compliant
                   then map (fun viol => warning_sign +:+ "  Policy: " +:+ viol)
                            violations
                   else []) in
             let messages :=
               messages
               ++ [check_mark +:+ " Grading complete: "
                   +:+ py_str (VFloat (points_earned result)) +:+ "/"
                   +:+ str_of_Z (points_possible result) +:+ " points"] in
             Returned (true, result, messages))
         | _, _ =>
             let messages :=
               messages
               ++ map (fun err => cross_mark +:+ " Output: " +:+ err) output_errors in
             bind (getitem "question_number" submission) (fun qnum =>
             bind (getitem "student_answer" submission) (fun answer =>
             bind (first output_errors) (fun err0 =>
             bind (create_fallback_result qnum answer
                     ("Invalid LLM response: " +:+ err0))
                  (fun fallback => Returned (false, fallback, messages)))))
         end))
   end).

End WithRuntime.

(** What the constructor of [GradingResult] checks, read on an object:
    the ranges of [question_number] and [points_earned], the sum of the
    breakdown, the length of the feedback. *)
Definition schema_valid (r : GradingResult) : bool :=
  (1 <=? Schemas.question_number r) && (Schemas.question_number r <=? 10)
  && fleb (of_Z 0) (points_earned r) && fleb (points_earned r) (of_Z 10)
  && match py_sum (dict_values (points_breakdown r)) with
     | Some total =>
         match breakdown_mismatch total (VFloat (points_earned r)) with
         | Some false => true
         | _ => false
         end
     | None => false
     end
  && (50 <=? String.length (feedback r))%nat.

End Guardrails.

Import Guardrails.

(** ** Notions used to state the properties *)
Module Reading.

(** The letter grades, from [F] up to [A]. *)
Definition letter_rank (g : string) : nat :=
  if String.eqb g "A" then 9
  else if String.eqb g "A-" then 8
  else if String.eqb g "B+" then 7
  else if String.eqb g "B" then 6
  else if String.eqb g "B-" then 5
  else if String.eqb g "C+" then 4
  else if String.eqb g "C" then 3
  else if String.eqb g "C-" then 2
  else if String.eqb g "D" then 1
  else 0.

(** The doubles that the literals [92.9] and [59.9] denote. *)
Definition float_92_9 : pyfloat := Fin (3268628167052493 # 35184372088832).
Definition float_59_9 : pyfloat := Fin (8430175552484147 # 140737488355328).

(** The timestamps stored for a submitter, and those of them that a check
    whose second clock reading is [now'] counts. *)
Definition stored (h : history) (student_id : string) : list datetime :=
  default [] (h !! student_id).

Definition recent (h : history) (now' : datetime) (student_id : string)
  : list datetime :=
  filter (fun ts => now' - hour < ts) (stored h student_id).


Fixpoint all_space (s : string) : bool :=
  match s with
  | EmptyString => true
  | String c s' => isspace c && all_space s'
  end.

(** Some pattern of [dangerous_patterns] occurs in the answer. *)
Definition matches_pattern (answer : string) : bool :=
  existsb (fun pattern => contains (lower pattern) (lower answer))
          dangerous_patterns.

(** [values] when the validator of [points_breakdown] runs, for an object
    that the constructor returned. *)
Definition values_at_breakdown (r : GradingResult) : dict :=
  [ ("question_number", VInt (Schemas.question_number r));
    ("points_earned", VFloat (points_earned r));
    ("points_possible", VInt (points_possible r));
    ("is_correct", VBool (is_correct r));
    ("student_answer", VStr (student_answer r));
    ("correct_answer", VStr (correct_answer r)) ].

(** The feedback block and the object that [create_fallback_result]
    spells out. *)
Definition fallback_feedback (error_message : string) : string :=
  "This submission could not be automatically graded due to a system error."
  +:+ nl +:+ nl
  +:+ "Error details: " +:+ error_message +:+ nl +:+ nl
  +:+ "This answer has been flagged for manual review by an instructor. You will receive "
  +:+ nl
  +:+ "your grade and feedback within 24 hours." +:+ nl +:+ nl
  +:+ "If you believe this is an error, please contact your instructor.".

Definition fallback_object (question_number : Z)
    (student_answer error_message : string) : GradingResult :=
  {| question_number := question_number;
     points_earned := of_Z 0;
     points_possible := 10;
     is_correct := false;
     student_answer := student_answer;
     correct_answer := "[REQUIRES MANUAL REVIEW]";
     points_breakdown :=
       [ ("correct_answer", VInt 0);
         ("showing_work", VInt 0);
         ("interpretation", VInt 0) ];
     error_type := Some incomplete_work;
     specific_errors :=
       [ "Automated grading failed";
         "Error: " +:+ error_message;
         "This submission requires manual review" ];
     what_was_correct := [];
     feedback := fallback_feedback error_message;
     data_references := ["[MANUAL REVIEW REQUIRED]"] |}.

(** The same result with another value for [showing_work]. *)
Definition with_showing_work (r : GradingResult) (v : pyval) : GradingResult :=
  {| question_number := Schemas.question_number r;
     points_earned := points_earned r;
     points_possible := points_possible r;
     is_correct := is_correct r;
     student_answer := student_answer r;
     correct_answer := correct_answer r;
     points_breakdown := dict_set "showing_work" v (points_breakdown r);
     error_type := error_type r;
     specific_errors := specific_errors r;
     what_was_correct := what_was_correct r;
     feedback := feedback r;
     data_references := data_references r |}.

Definition partial_credit_violation : string :=
  "Policy violation: Wrong calculation with no partial credit for methodology".

(** The response of the self-test at the end of [guardrails.py]. *)
Definition test_response : dict :=
  [ ("question_number", VInt 1);
    ("points_earned", VFloat (of_Z 7));
    ("points_possible", VInt 10);
    ("is_correct", VBool false);
    ("student_answer", VStr "$6,500");
    ("correct_answer", VStr "$7,398.53");
    ("points_breakdown",
      VDict [ ("correct_answer", VInt 3);
              ("showing_work", VInt 2);
              ("interpretation", VInt 2) ]);
    ("error_type", VStr "wrong_calculation");
    ("specific_errors", VList [VStr "Missed orders"]);
    ("what_was_correct", VList [VStr "Good methodology"]);
    ("feedback",
      VStr "Your answer is close but you missed some orders in the dataset.");
    ("data_references", VList [VStr "ecommerce_sales.csv"]) ].

Definition test_submission : dict :=
  [ ("question_number", VInt 1); ("student_answer", VStr "$6,500") ].

(** The object that the constructor makes of [test_response]. *)
Definition test_result : GradingResult :=
  {| question_number := 1;
     points_earned := of_Z 7;
     points_possible := 10;
     is_correct := false;
     student_answer := "$6,500";
     correct_answer := "$7,398.53";
     points_breakdown :=
       [ ("correct_answer", VInt 3);
         ("showing_work", VInt 2);
         ("interpretation", VInt 2) ];
     error_type := Some wrong_calculation;
     specific_errors := ["Missed orders"];
     what_was_correct := ["Good methodology"];
     feedback :=
       "Your answer is close but you missed some orders in the dataset.";
     data_references := ["ecommerce_sales.csv"] |}.

(** The same response claiming 6 points, the breakdown still summing to
    7. *)
Definition mismatch_response : dict :=
  dict_set "points_earned" (VFloat (of_Z 6)) test_response.

(** The same response out of 5 points, and the object the constructor
    makes of it. *)
Definition over_response : dict :=
  dict_set "points_possible" (VInt 5) test_response.

Definition over_result : GradingResult :=
  {| question_number := 1;
     points_earned := of_Z 7;
     points_possible := 5;
     is_correct := false;
     student_answer := "$6,500";
     correct_answer := "$7,398.53";
     points_breakdown :=
       [ ("correct_answer", VInt 3);
         ("showing_work", VInt 2);
         ("interpretation", VInt 2) ];
     error_type := Some wrong_calculation;
     specific_errors := ["Missed orders"];
     what_was_correct := ["Good methodology"];
     feedback :=
       "Your answer is close but you missed some orders in the dataset.";
     data_references := ["ecommerce_sales.csv"] |}.

(** A response that the output guard accepts and that the consistency
    checker and the policy enforcer both object to: marked correct with 7
    points, no credit for the work shown, no data reference. *)
Definition warned_response : dict :=
  dict_set "data_references" (VList [])
    (dict_set "points_breakdown"
       (VDict [ ("correct_answer", VInt 7);
                ("showing_work", VInt 0);
                ("interpretation", VInt 0) ])
       (dict_set "is_correct" (VBool true) test_response)).

Definition warned_result : GradingResult :=
  {| question_number := 1;
     points_earned := of_Z 7;
     points_possible := 10;
     is_correct := true;
     student_answer := "$6,500";
     correct_answer := "$7,398.53";
     points_breakdown :=
       [ ("correct_answer", VInt 7);
         ("showing_work", VInt 0);
         ("interpretation", VInt 0) ];
     error_type := Some wrong_calculation;
     specific_errors := ["Missed orders"];
     what_was_correct := ["Good methodology"];
     feedback :=
       "Your answer is close but you missed some orders in the dataset.";
     data_references := [] |}.


(** The submission has no question number, or one that is an integer
    outside 1..10. *)
Definition invalid_number (submission : dict) : Prop :=
  dict_get "question_number" submission = None
  \/ exists n : Z,
       dict_get "question_number" submission = Some (VInt n)
       /\ (n < 1 \/ 10 < n).

End Reading.

Import Reading.

(** ** The rest of schemas.py and guardrails.py, and their callers *)

(** *** What this code takes from the Python runtime besides [Runtime]

    [py_format v spec] is [format(v, spec)], the rendering of [{v:spec}]
    inside an f-string, and [py_round v n] is [round(v, n)]. *)
Class Formatting : Type := {
  py_format : pyval -> string -> string;
  py_round : pyval -> Z -> pyval
}.

(** *** Arithmetic and containers, continued *)
Module Arith.

(** [x / n] for a float [x] and an integer [n]; [None] is the
    [ZeroDivisionError]. *)
Definition fdiv_int (x : pyfloat) (n : Z) : option pyfloat :=
  if n =? 0 then None
  else Some match x with
            | Fin q => Fin (q / inject_Z n)
            | PInf => if 0 <? n then PInf else NInf
            | NInf => if 0 <? n then NInf else PInf
            | NaN => NaN
            end.

(** [x * n] for a float [x] and an integer [n]. *)
Definition fmul_int (x : pyfloat) (n : Z) : pyfloat :=
  match x with
  | Fin q => Fin (q * inject_Z n)
  | PInf => if 0 <? n then PInf else if n <? 0 then NInf else NaN
  | NInf => if 0 <? n then NInf else if n <? 0 then PInf else NaN
  | NaN => NaN
  end.

(** [sum(x for ...)] over floats: the integer [0] of an empty sum, a
    float otherwise. *)
Definition sum_floats (l : list pyfloat) : pyval :=
  match l with
  | [] => VInt 0
  | _ :: _ => VFloat (fold_left fadd l (of_Z 0))
  end.


(** The value of a number; a NaN for what is not a number. *)
Definition value_of (v : pyval) : pyfloat :=
  match num_value v with
  | Some x => x
  | None => NaN
  end.

(** [s in l] for a list of strings. *)
Definition str_in (s : string) (l : list string) : bool :=
  existsb (String.eqb s) l.

(** [sep.join(l)]. *)
Fixpoint join (sep : string) (l : list string) : string :=
  match l with
  | [] => ""
  | x :: rest =>
      match rest with
      | [] => x
      | _ :: _ => x +:+ sep +:+ join sep rest
      end
  end.

(** The literals [9.5] and [0.8], by the doubles they denote. *)
Definition float_9_5 : pyfloat := Fin (19 # 2).
Definition float_0_8 : pyfloat :=
  Fin (3602879701896397 # 4503599627370496).

(** What can be iterated over: the items of a list, the keys of a dict,
    the characters of a string; [None] is the [TypeError] of the other
    values. *)
Fixpoint chars (s : string) : list pyval :=
  match s with
  | EmptyString => []
  | String c s' => VStr (String c EmptyString) :: chars s'
  end.

Definition py_iter (v : pyval) : option (list pyval) :=
  match v with
  | VList l => Some l
  | VDict d => Some (map (fun kv => VStr (fst kv)) d)
  | VStr s => Some (chars s)
  | _ => None
  end.

(** [v[key]] for a string key: the entry of a dict, a [KeyError] when the
    dict has no such key, a [TypeError] on any other value. *)
Definition subscript (v : pyval) (key : string) : outcome pyval :=
  match v with
  | VDict d =>
      match dict_get key d with
      | Some x => Returned x
      | None => Raised (KeyError key)
      end
  | _ => Raised TypeError
  end.

End Arith.

Import Arith.

(** *** schemas.py: percentages, dicts and the exam report *)
Module Report.




(** An [ExamGradingReport] object: the attributes in the order of the
    class body. *)
Record ExamGradingReport : Type := {
  student_name : string;
  exam_date : string;
  question_results : list GradingResult;
  total_points_earned : pyfloat;
  total_points_possible : Z;
  overall_percentage : pyfloat;
  letter_grade : string;
  strengths : list string;
  areas_for_improvement : list string;
  overall_feedback : string;
  grading_timestamp : string
}.

(** The members of the [Literal] of [letter_grade]. *)
Definition letter_grades : list string :=
  [ "A"; "A-"; "B+"; "B"; "B-"; "C+"; "C"; "C-"; "D"; "F" ].

Definition validate_literal_grade (v : pyval) : checked string :=
  match v with
  | VStr s => if str_in s letter_grades then Good s else Bad WrongType
  | _ => Bad WrongType
  end.

(** [Field(..., min_items=n)] on a list. *)
Definition min_items {A : Type} (n : nat) (l : list A) : checked (list A) :=
  if (length l <? n)%nat then Bad (MinLength n) else Good l.

(** [Field(..., ge=lo)] on an [int] and on a [float]. *)
Definition int_ge (lo : Z) (z : Z) : checked Z :=
  if z <? lo then Bad (NotGe lo) else Good z.

Definition float_ge (lo : Z) (x : pyfloat) : checked pyfloat :=
  if negb (fleb (of_Z lo) x) then Bad (NotGe lo) else Good x.

Definition checked_value {A : Type} (c : checked A) : option A :=
  match c with
  | Good a => Some a
  | Bad _ => None
  end.

Section Constructor.
Context `{RT : Runtime}.

(** [validate_total_points]: [question_results] is [None] when the key is
    not in [values], that is when the field failed. *)
Definition validate_total_points (v : pyfloat)
    (question_results : option (list GradingResult)) : checked pyfloat :=
  match question_results with
  | Some results =>
      let calculated_total := sum_floats (map points_earned results) in
      if fltb tolerance (fabs (fsub (value_of calculated_total) v))
      then Bad (ValueError ("Total points (" +:+ py_str (VFloat v)
                            +:+ ") must match sum of question points ("
                            +:+ py_str calculated_total +:+ ")"))
      else Good v
  | None => Good v
  end.

(** [validate_letter_grade]: [overall_percentage] is [None] when the key
    is not in [values], and the lookup then gives the integer [0]. *)
Definition validate_letter_grade (v : string)
    (overall_percentage : option pyfloat) : checked string :=
  let pct :=
    match overall_percentage with
    | Some p => VFloat p
    | None => VInt 0
    end in
  let expected := calculate_letter_grade (value_of pct) in
  if negb (String.eqb v expected)
  then Bad (ValueError ("Letter grade " +:+ v
                        +:+ " does not match percentage " +:+ py_str pct
                        +:+ " (expected " +:+ expected +:+ ")"))
  else Good v.

(** The constructor of [ExamGradingReport], called with
    [question_results] a list of [GradingResult] objects (which pydantic
    takes as they are), or without it, and with a dict of the other
    keyword arguments. *)
Definition ExamGradingReport_init (kwargs : dict)
    (results : option (list GradingResult)) : outcome ExamGradingReport :=
  let f_student_name := required "student_name" kwargs (typed validate_str) in
  let f_exam_date := required "exam_date" kwargs (typed validate_str) in
  let f_question_results :=
    match results with
    | Some l => min_items 1 l
    | None => Bad Missing
    end in
  let f_total_points_earned :=
    required "total_points_earned" kwargs (fun v =>
      and_then (and_then (typed validate_float v) (float_ge 0))
               (fun x => validate_total_points x
                           (checked_value f_question_results))) in
  let f_total_points_possible :=
    required "total_points_possible" kwargs (fun v =>
      and_then (typed validate_int v) (int_ge 1)) in
  let f_overall_percentage :=
    required "overall_percentage" kwargs (fun v =>
      and_then (typed validate_float v) (float_range 0 100)) in
  let f_letter_grade :=
    required "letter_grade" kwargs (fun v =>
      and_then (validate_literal_grade v)
               (fun s => validate_letter_grade s
                           (checked_value f_overall_percentage))) in
  let f_strengths := optional "strengths" kwargs [] (typed validate_str_list) in
  let f_areas_for_improvement :=
    optional "areas_for_improvement" kwargs [] (typed validate_str_list) in
  let f_overall_feedback :=
    required "overall_feedback" kwargs (fun v =>
      and_then (typed validate_str v) (min_length 100)) in
  let f_grading_timestamp :=
    required "grading_timestamp" kwargs (typed validate_str) in
  let errors :=
    entry "student_name" f_student_name
    ++ entry "exam_date" f_exam_date
    ++ entry "question_results" f_question_results
    ++ entry "total_points_earned" f_total_points_earned
    ++ entry "total_points_possible" f_total_points_possible
    ++ entry "overall_percentage" f_overall_percentage
    ++ entry "letter_grade" f_letter_grade
    ++ entry "strengths" f_strengths
    ++ entry "areas_for_improvement" f_areas_for_improvement
    ++ entry "overall_feedback" f_overall_feedback
    ++ entry "grading_timestamp" f_grading_timestamp in
  match f_student_name, f_exam_date, f_question_results,
        f_total_points_earned, f_total_points_possible,
        f_overall_percentage, f_letter_grade, f_strengths,
        f_areas_for_improvement, f_overall_feedback,
        f_grading_timestamp with
  | Good sn, Good ed, Good qr, Good te, Good tp, Good op, Good lg,
    Good st, Good ai, Good fb, Good ts =>
      Returned {| student_name := sn; exam_date := ed;
                  question_results := qr; total_points_earned := te;
                  total_points_possible := tp; overall_percentage := op;
                  letter_grade := lg; strengths := st;
                  areas_for_improvement := ai; overall_feedback := fb;
                  grading_timestamp := ts |}
  | _, _, _, _, _, _, _, _, _, _, _ => Raised (ValidationError errors)
  end.

End Constructor.

(** [ExamGradingReport.get_summary_stats]; [None] is the
    [ZeroDivisionError] of a report without questions. *)
Definition get_summary_stats (self : ExamGradingReport) : option dict :=
  match fdiv_int (total_points_earned self)
          (Z.of_nat (length (question_results self))) with
  | Some average =>
      Some [ ("total_questions",
               VInt (Z.of_nat (length (question_results self))));
             ("questions_correct",
               VInt (Z.of_nat (length (filter (fun q => is_correct q = true)
                                         (question_results self)))));
             ("average_points_per_question", VFloat average);
             ("percentage", VFloat (overall_percentage self));
             ("grade", VStr (letter_grade self)) ]
  | None => None
  end.

End Report.

Import Report.

(** *** guardrails.py: the retry policy and the check of grade inflation *)
Module Policies.

(** [ErrorHandlingGuardrails.should_retry]. *)
Definition should_retry (attempt_number : Z) (error_type : string)
    (max_retries : Z) : bool :=
  if str_in error_type ["validation_error"; "invalid_input"] then false
  else if max_retries <=? attempt_number then false
  else str_in error_type
         [ "llm_error"; "network_error"; "timeout_error"; "rate_limit_error" ].

(** The results with [points_earned == points_possible]. *)
Definition perfect (r : GradingResult) : bool :=
  feqb (points_earned r) (of_Z (points_possible r)).

Section WithFormatting.
Context `{FM : Formatting}.

(** [BusinessRulesGuardrails.check_grade_inflation]; [None] is the
    [ZeroDivisionError] of a division. *)
Definition check_grade_inflation (results : list GradingResult)
  : option (bool * string) :=
  let n := Z.of_nat (length results) in
  if n =? 0 then Some (true, "No results to check")
  else
    match fdiv_int (value_of (sum_floats (map points_earned results))) n with
    | None => None
    | Some avg_score =>
        let perfect_scores :=
          Z.of_nat (length (filter (fun r => perfect r = true) results)) in
        match fdiv_int (of_Z perfect_scores) n with
        | None => None
        | Some perfect_rate =>
            if fltb float_9_5 avg_score && (3 <? n)
            then Some (false,
                       "Possible grade inflation: avg score "
                       +:+ py_format (VFloat avg_score) ".1f" +:+ "/10")
            else if fltb float_0_8 perfect_rate && (5 <? n)
            then Some (false,
                       "Possible grade inflation: "
                       +:+ py_format (VFloat (fmul_int perfect_rate 100)) ".0f"
                       +:+ "% perfect scores")
            else Some (true,
                       "Grade distribution acceptable (avg: "
                       +:+ py_format (VFloat avg_score) ".1f" +:+ "/10)")
        end
    end.

End WithFormatting.

End Policies.

Import Policies.

(** *** crew.py: the exam report *)
Module Crew.






Section WithRuntime.
Context `{RT : Runtime} `{FM : Formatting}.


End WithRuntime.

End Crew.

Import Crew.

(** *** main.py: the dataset of a question *)
Module Main.

(** The inner loop of [map_question_to_dataset]: whether a question of
    the section has the number. *)
Fixpoint has_question (question_number : Z) (questions : list pyval)
  : outcome bool :=
  match questions with
  | [] => Returned false
  | question :: rest =>
      bind (subscript question "question_number") (fun n =>
        if py_eq_int n question_number then Returned true
        else has_question question_number rest)
  end.

(** The outer loop. *)
Fixpoint find_dataset (question_number : Z) (sections : list pyval)
  : outcome pyval :=
  match sections with
  | [] => Returned (VStr "unknown.csv")
  | section :: rest =>
      bind (subscript section "questions") (fun questions =>
        match py_iter questions with
        | None => Raised TypeError
        | Some qs =>
            bind (has_question question_number qs) (fun found =>
              if found then subscript section "dataset"
              else find_dataset question_number rest)
        end)
  end.

(** [map_question_to_dataset]. *)
Definition map_question_to_dataset (question_number : Z) (test_data : pyval)
  : outcome pyval :=
  bind (subscript test_data "sections") (fun sections =>
    match py_iter sections with
    | None => Raised TypeError
    | Some l => find_dataset question_number l
    end).

End Main.

Import Main.

(** ** Notions used to state the properties of the rest of the code *)
Module Notions.

(** What the input guard asks of a submission: a question number that is
    an [int] (a [bool] is one) between 1 and 10, and an answer that is
    there, is not [None], is not a blank string, and whose [str] has at
    most 5000 characters. *)
Definition acceptable `{RT : Runtime} (submission : dict) : Prop :=
  exists qnum answer : pyval,
    dict_get "question_number" submission = Some qnum
    /\ isinstance_int qnum = true
    /\ 1 <= int_of qnum <= 10
    /\ dict_get "student_answer" submission = Some answer
    /\ answer <> VNone
    /\ (forall a : string, answer = VStr a -> strip a <> "")
    /\ (String.length (py_str answer) <= 5000)%nat.

(** A submission whose question number is an integer from 1 to 10 and
    whose answer, when there is one, is a string. *)
Definition well_typed (submission : dict) : Prop :=
  (exists n : Z,
     dict_get "question_number" submission = Some (VInt n) /\ 1 <= n <= 10)
  /\ (forall v : pyval,
        dict_get "student_answer" submission = Some v ->
        exists a : string, v = VStr a).

(** The fields of [GradingResult] declared with [Field(...)]. *)
Definition required_keys : list string :=
  [ "question_number"; "points_earned"; "is_correct"; "student_answer";
    "correct_answer"; "points_breakdown"; "feedback" ].

(** No indicator of [placeholder_indicators] occurs in the feedback. *)
Definition no_placeholder (feedback : string) : Prop :=
  forall indicator : string,
    In indicator placeholder_indicators ->
    contains (lower indicator) (lower feedback) = false.

Definition data_violation : string :=
  "Policy violation: Data-related error must include data_references".

Definition zero_violation : string :=
  "Policy violation: Zero points requires at least 2 specific errors".



(** The error types that [should_retry] retries. *)
Definition retryable : list string :=
  [ "llm_error"; "network_error"; "timeout_error"; "rate_limit_error" ].

(** A float that is at most [bound]; a NaN and [+inf] are not. *)
Definition at_most (bound : Q) (x : pyfloat) : Prop :=
  match x with
  | Fin q => (q <= bound)%Q
  | NInf => True
  | PInf | NaN => False
  end.






(** Test data as [map_question_to_dataset] reads it: a question has a
    number, a section has a dataset and a list of questions with numbers;
    a question has the number asked for; a section lists such a
    question. *)
Definition numbered (question : pyval) : bool :=
  match subscript question "question_number" with
  | Returned _ => true
  | Raised _ => false
  end.

Definition well_formed_section (section : pyval) : bool :=
  match subscript section "questions", subscript section "dataset" with
  | Returned (VList questions), Returned _ => forallb numbered questions
  | _, _ => false
  end.

Definition is_question (question_number : Z) (question : pyval) : bool :=
  match subscript question "question_number" with
  | Returned n => py_eq_int n question_number
  | Raised _ => false
  end.

Definition lists_question (question_number : Z) (section : pyval) : bool :=
  match subscript section "questions" with
  | Returned (VList questions) =>
      existsb (is_question question_number) questions
  | _ => false
  end.

(** A response with the required fields only, and the object the
    constructor makes of it. *)
Definition minimal_response : dict :=
  [ ("question_number", VInt 1);
    ("points_earned", VFloat (of_Z 7));
    ("is_correct", VBool false);
    ("student_answer", VStr "$6,500");
    ("correct_answer", VStr "$7,398.53");
    ("points_breakdown",
      VDict [ ("correct_answer", VInt 3);
              ("showing_work", VInt 2);
              ("interpretation", VInt 2) ]);
    ("feedback",
      VStr "Your answer is close but you missed some orders in the dataset.") ].

Definition minimal_result : GradingResult :=
  {| question_number := 1;
     points_earned := of_Z 7;
     points_possible := 10;
     is_correct := false;
     student_answer := "$6,500";
     correct_answer := "$7,398.53";
     points_breakdown :=
       [ ("correct_answer", VInt 3);
         ("showing_work", VInt 2);
         ("interpretation", VInt 2) ];
     error_type := None;
     specific_errors := [];
     what_was_correct := [];
     feedback :=
       "Your answer is close but you missed some orders in the dataset.";
     data_references := [] |}.

(** A result with full marks. *)
Definition full_marks : GradingResult :=
  {| question_number := 2;
     points_earned := of_Z 10;
     points_possible := 10;
     is_correct := true;
     student_answer := "$7,398.53";
     correct_answer := "$7,398.53";
     points_breakdown :=
       [ ("correct_answer", VInt 6);
         ("showing_work", VInt 2);
         ("interpretation", VInt 2) ];
     error_type := Some no_error;
     specific_errors := [];
     what_was_correct := ["Correct total"; "Clear methodology"];
     feedback :=
       "Correct: every Q4 Electronics order is included in the total.";
     data_references := ["ecommerce_sales.csv"] |}.

(** The keyword arguments of the report of the self-test at the end of
    [schemas.py], [question_results] apart, with a timestamp for
    [datetime.now().isoformat()]; its [overall_feedback] has 73
    characters. *)
Definition example_report : dict :=
  [ ("student_name", VStr "Jane Doe");
    ("exam_date", VStr "2024-11-29");
    ("total_points_earned", VFloat (of_Z 7));
    ("total_points_possible", VInt 10);
    ("overall_percentage", VFloat (of_Z 70));
    ("letter_grade", VStr "C-");
    ("strengths", VList [VStr "Good methodology"; VStr "Clear presentation"]);
    ("areas_for_improvement",
      VList [VStr "Attention to detail"; VStr "Data verification"]);
    ("overall_feedback",
      VStr "Good understanding of concepts, but need to be more thorough with data...");
    ("grading_timestamp", VStr "2024-11-29T10:30:00") ].

(** The same arguments with an [overall_feedback] of 100 characters or
    more, and the report the constructor makes of them and of
    [test_result]. *)
Definition long_feedback : string :=
  "Good understanding of concepts, but need to be more thorough with data: "
  +:+ "check every order of the quarter before adding up.".

Definition accepted_report : dict :=
  dict_set "overall_feedback" (VStr long_feedback) example_report.

Definition accepted_report_object : ExamGradingReport :=
  {| student_name := "Jane Doe";
     exam_date := "2024-11-29";
     question_results := [test_result];
     total_points_earned := of_Z 7;
     total_points_possible := 10;
     overall_percentage := of_Z 70;
     letter_grade := "C-";
     strengths := ["Good methodology"; "Clear presentation"];
     areas_for_improvement := ["Attention to detail"; "Data verification"];
     overall_feedback := long_feedback;
     grading_timestamp := "2024-11-29T10:30:00" |}.

(** Test data with two sections. *)
Definition question_of (n : Z) : pyval :=
  VDict [ ("question_number", VInt n); ("points", VInt 10) ].

Definition sample_test_data : pyval :=
  VDict
    [ ("exam_title", VStr "Data Analysis");
      ("sections",
        VList
          [ VDict [ ("dataset", VStr "ecommerce_sales.csv");
                    ("questions", VList [question_of 1; question_of 2]) ];
            VDict [ ("dataset", VStr "customer_reviews.csv");
                    ("questions", VList [question_of 3; question_of 4]) ] ]) ].

End Notions.

Import Notions.

(** ** A runtime to evaluate with

    Type validation that accepts a value of the annotated type (and an
    [int] where a [float] is expected) and nothing else, and renderings in
    the style of Python's.  The properties below hold for every runtime;
    this one evaluates the pipeline on concrete inputs. *)
Module Sample.

Definition join (sep : string) (l : list string) : string :=
  match l with
  | [] => ""
  | x :: rest => fold_left (fun acc y => acc +:+ sep +:+ y) rest x
  end.

Definition quote (s : string) : string := "'" +:+ s +:+ "'".

(** A float with an integral value prints as [n.0]; any other finite
    float prints as its quotient. *)
Definition float_str (x : pyfloat) : string :=
  match x with
  | Fin q =>
      if (Z.pos (Qden (Qred q)) =? 1)
      then str_of_Z (Qnum (Qred q)) +:+ ".0"
      else str_of_Z (Qnum (Qred q)) +:+ "/" +:+ str_of_Z (Z.pos (Qden (Qred q)))
  | PInf => "inf"
  | NInf => "-inf"
  | NaN => "nan"
  end.

Fixpoint repr (v : pyval) : string :=
  match v with
  | VNone => "None"
  | VBool b => if b then "True" else "False"
  | VInt z => str_of_Z z
  | VFloat x => float_str x
  | VStr s => quote s
  | VList l => "[" +:+ join ", " (map repr l) +:+ "]"
  | VDict d =>
      "{" +:+ join ", " (map (fun kv => quote (fst kv) +:+ ": " +:+ repr (snd kv)) d)
      +:+ "}"
  end.

Definition sample_str (v : pyval) : string :=
  match v with
  | VStr s => s
  | _ => repr v
  end.

Definition field_error_str (e : field_error) : string :=
  match e with
  | Missing => "field required"
  | WrongType => "value is not valid for the type of the field"
  | NotGe limit => "ensure this value is greater than or equal to " +:+ str_of_Z limit
  | NotLe limit => "ensure this value is less than or equal to " +:+ str_of_Z limit
  | MinLength limit =>
      "ensure this value has at least " +:+ str_of_nat limit +:+ " characters"
  | ValueError msg => msg
  | TypeErrorIn => "unsupported operand type(s)"
  end.

Definition sample_exn_str (e : exn) : string :=
  match e with
  | ValidationError errors =>
      str_of_nat (length errors) +:+ " validation error(s) for GradingResult"
      +:+ fold_right (fun fe acc =>
                        nl +:+ fst fe +:+ nl +:+ "  " +:+ field_error_str (snd fe)
                        +:+ acc)
                     "" errors
  | TypeError => "unsupported operand type(s)"
  | KeyError key => quote key
  | IndexError => "list index out of range"
  end.

Fixpoint all_str (l : list pyval) : option (list string) :=
  match l with
  | [] => Some []
  | VStr s :: rest =>
      match all_str rest with
      | Some r => Some (s :: r)
      | None => None
      end
  | _ :: _ => None
  end.

Lemma all_str_map (l : list string) : all_str (map VStr l) = Some l.
Proof.
  induction l as [|s l IH]; simpl; [reflexivity|].
  rewrite IH. reflexivity.
Qed.

Definition runtime : Runtime := {|
  py_str := sample_str;
  exn_str := sample_exn_str;
  validate_int := fun v => match v with VInt z => Some z | _ => None end;
  validate_float := fun v =>
    match v with
    | VFloat x => Some x
    | VInt z => Some (of_Z z)
    | _ => None
    end;
  validate_bool := fun v => match v with VBool b => Some b | _ => None end;
  validate_str := fun v => match v with VStr s => Some s | _ => None end;
  validate_dict := fun v => match v with VDict d => Some d | _ => None end;
  validate_str_list := fun v =>
    match v with VList l => all_str l | _ => None end;
  wraps_type_error := false;
  py_str_str := fun s => eq_refl;
  validate_int_int := fun z => eq_refl;
  validate_float_float := fun x => eq_refl;
  validate_bool_bool := fun b => eq_refl;
  validate_str_str := fun s => eq_refl;
  validate_dict_dict := fun d => eq_refl;
  validate_str_list_list := all_str_map
|}.

End Sample.

(** ** Formatting to evaluate with

    [format(x, ".kf")] of a number by its value, rounded to [k] decimals
    with a tie going to the even digit, and [round(x, n)] to the same
    decimal value (the double nearest to it is not computed).  The
    properties below hold for every formatting; this one evaluates
    [check_grade_inflation] and [create_exam_report] on concrete
    inputs. *)
Module SampleFormatting.

(** The integer nearest to [q], a tie going to the even one. *)
Definition round_half_even (q : Q) : Z :=
  let n := Qnum q in
  let d := Z.pos (Qden q) in
  let twice := 2 * (n mod d) in
  if twice <? d then n / d
  else if d <? twice then n / d + 1
  else if Z.even (n / d) then n / d
  else n / d + 1.

Fixpoint zeros (n : nat) : string :=
  match n with
  | O => ""
  | S n' => "0" +:+ zeros n'
  end.

Definition fixed (q : Q) (digits : nat) : string :=
  let unit := 10 ^ Z.of_nat digits in
  let scaled := Z.abs (round_half_even (q * inject_Z unit)) in
  let fraction := str_of_Z (scaled mod unit) in
  (if Qnum q <? 0 then "-" else "")
  +:+ str_of_Z (scaled / unit)
  +:+ match digits with
      | O => ""
      | S _ => "." +:+ zeros (digits - String.length fraction) +:+ fraction
      end.

Definition decimals (spec : string) : option nat :=
  if String.eqb spec ".0f" then Some 0%nat
  else if String.eqb spec ".1f" then Some 1%nat
  else if String.eqb spec ".2f" then Some 2%nat
  else None.

Definition sample_format (v : pyval) (spec : string) : string :=
  match num_value v, decimals spec with
  | Some (Fin q), Some digits => fixed q digits
  | _, _ => Sample.sample_str v
  end.

Definition sample_round (v : pyval) (n : Z) : pyval :=
  match v with
  | VFloat (Fin q) =>
      VFloat (Fin (Qred (inject_Z (round_half_even (q * inject_Z (10 ^ n)))
                         / inject_Z (10 ^ n))))
  | _ => v
  end.

Definition formatting : Formatting := {|
  py_format := sample_format;
  py_round := sample_round
|}.

End SampleFormatting.

(** ** Properties of [calculate_letter_grade] *)
Module LetterGrade.

Lemma fleb_trans (x y z : pyfloat) :
  fleb x y = true -> fleb y z = true -> fleb x z = true.
Proof.
  destruct x as [a| | |], y as [b| | |], z as [c| | |]; simpl; try congruence.
  rewrite !Qle_bool_iff. intros. lra.
Qed.

Lemma ge_int_Fin (q : Q) (n : Z) :
  ge_int (Fin q) n = true <-> (inject_Z n <= q)%Q.
Proof. unfold ge_int, of_Z. simpl. apply Qle_bool_iff. Qed.

Lemma ge_int_Fin_false (q : Q) (n : Z) :
  ge_int (Fin q) n = false <-> (q < inject_Z n)%Q.
Proof.
  rewrite <- not_true_iff_false, ge_int_Fin.
  split; [apply Qnot_le_lt | apply Qlt_not_le].
Qed.

(** Every threshold test on a finite percentage, turned into an
    inequality between rationals. *)
Ltac thresholds q :=
  unfold calculate_letter_grade;
  repeat match goal with
  | |- context [if ge_int (Fin q) ?k then _ else _] =>
      let E := fresh "E" in
      destruct (ge_int (Fin q) k) eqn:E;
      [apply ge_int_Fin in E | apply ge_int_Fin_false in E];
      unfold inject_Z in E
  end.

Lemma grade_bands (q : Q) :
  ((calculate_letter_grade (Fin q) = "A" <-> 93 <= q)
   /\ (calculate_letter_grade (Fin q) = "A-" <-> 90 <= q < 93)
   /\ (calculate_letter_grade (Fin q) = "B+" <-> 87 <= q < 90)
   /\ (calculate_letter_grade (Fin q) = "B" <-> 83 <= q < 87)
   /\ (calculate_letter_grade (Fin q) = "B-" <-> 80 <= q < 83)
   /\ (calculate_letter_grade (Fin q) = "C+" <-> 77 <= q < 80)
   /\ (calculate_letter_grade (Fin q) = "C" <-> 73 <= q < 77)
   /\ (calculate_letter_grade (Fin q) = "C-" <-> 70 <= q < 73)
   /\ (calculate_letter_grade (Fin q) = "D" <-> 60 <= q < 70)
   /\ (calculate_letter_grade (Fin q) = "F" <-> q < 60))%Q.
Proof.
  thresholds q; repeat split; intros;
    try discriminate; try reflexivity; try lra;
    try (match goal with H : _ /\ _ |- _ => destruct H end; lra).
Qed.

Lemma grade_monotone (p q : pyfloat) :
  fleb p q = true ->
  (letter_rank (calculate_letter_grade p)
   <= letter_rank (calculate_letter_grade q))%nat.
Proof.
  intros Hpq.
  assert (H : forall k, ge_int p k = true -> ge_int q k = true).
  { intros k Hk. unfold ge_int in *. eapply fleb_trans; eauto. }
  unfold calculate_letter_grade.
  repeat match goal with
  | |- context [if ge_int p ?k then _ else _] =>
      let E := fresh "E" in
      destruct (ge_int p k) eqn:E; [apply H in E; rewrite ?E|]
  end;
  repeat match goal with
  | |- context [if ge_int q ?k then _ else _] => destruct (ge_int q k) eqn:?
  end; vm_compute; lia.
Qed.

(** C6. [calculate_letter_grade] is the step function of the grading
    scale: on a finite percentage each letter is returned on exactly its
    band, every threshold belonging to the band above it; an infinite
    percentage gets the letter of its end of the scale, and a NaN, which
    reaches no threshold, gets [F]; the letter never goes down when the
    percentage goes up; and the four boundary values of the specification
    get [A-], [A], [F] and [D]. *)
Theorem calculate_letter_grade_step_function :
  (forall q : Q,
     (calculate_letter_grade (Fin q) = "A" <-> 93 <= q)
     /\ (calculate_letter_grade (Fin q) = "A-" <-> 90 <= q < 93)
     /\ (calculate_letter_grade (Fin q) = "B+" <-> 87 <= q < 90)
     /\ (calculate_letter_grade (Fin q) = "B" <-> 83 <= q < 87)
     /\ (calculate_letter_grade (Fin q) = "B-" <-> 80 <= q < 83)
     /\ (calculate_letter_grade (Fin q) = "C+" <-> 77 <= q < 80)
     /\ (calculate_letter_grade (Fin q) = "C" <-> 73 <= q < 77)
     /\ (calculate_letter_grade (Fin q) = "C-" <-> 70 <= q < 73)
     /\ (calculate_letter_grade (Fin q) = "D" <-> 60 <= q < 70)
     /\ (calculate_letter_grade (Fin q) = "F" <-> q < 60))%Q
  /\ calculate_letter_grade PInf = "A"
  /\ calculate_letter_grade NInf = "F"
  /\ calculate_letter_grade NaN = "F"
  /\ (forall p q : pyfloat,
        fleb p q = true ->
        (letter_rank (calculate_letter_grade p)
         <= letter_rank (calculate_letter_grade q))%nat)
  /\ calculate_letter_grade float_92_9 = "A-"
  /\ calculate_letter_grade (of_Z 93) = "A"
  /\ calculate_letter_grade float_59_9 = "F"
  /\ calculate_letter_grade (of_Z 60) = "D".
Proof.
  split; [exact grade_bands|].
  repeat split; try reflexivity.
  exact grade_monotone.
Qed.

End LetterGrade.

(** ** Properties of the rate limiter *)
Module RateLimiter.

Lemma check_rate_limit_unfold (h : history) (now now' : datetime)
    (sid : string) (limit : Z) :
  check_rate_limit h now now' sid limit =
  let h0 := match h !! sid with None => <[sid := []]> h | Some _ => h end in
  if limit <=? Z.of_nat (length (recent h now' sid))
  then (h0,
        (false,
         "Rate limit exceeded: " +:+ str_of_nat (length (recent h now' sid))
         +:+ " submissions in last hour (max " +:+ str_of_Z limit +:+ ")"))
  else (<[sid := stored h sid ++ [now]]> h0,
        (true,
         "Rate limit OK: "
         +:+ str_of_Z (Z.of_nat (length (recent h now' sid)) + 1)
         +:+ "/" +:+ str_of_Z limit +:+ " submissions this hour")).
Proof.
  unfold check_rate_limit, recent, stored.
  destruct (h !! sid) as [l|] eqn:E; simpl.
  - rewrite E. reflexivity.
  - rewrite lookup_insert_eq. reflexivity.
Qed.


Lemma stored_after (h : history) (now now' : datetime) (sid : string) (limit : Z) :
  stored (fst (check_rate_limit h now now' sid limit)) sid =
  if fst (snd (check_rate_limit h now now' sid limit))
  then stored h sid ++ [now]
  else stored h sid.
Proof.
  rewrite check_rate_limit_unfold. simpl. unfold stored.
  destruct (limit <=? _); simpl.
  - destruct (h !! sid) eqn:E;
      [rewrite E; reflexivity | rewrite lookup_insert_eq; reflexivity].
  - rewrite lookup_insert_eq. reflexivity.
Qed.

Lemma others_after (h : history) (now now' : datetime) (sid : string)
    (limit : Z) (sid' : string) :
  sid' <> sid ->
  fst (check_rate_limit h now now' sid limit) !! sid' = h !! sid'.
Proof.
  intros Hne. rewrite check_rate_limit_unfold. simpl.
  destruct (limit <=? _); simpl; destruct (h !! sid) eqn:E;
    rewrite ?lookup_insert_ne by congruence; reflexivity.
Qed.








(** C3, as the code has it. The history of a submitter is never pruned:
    a check leaves it as it was when it denies, appends the time of the
    check when it admits, removes no timestamp whatever its age, and does
    not touch the other submitters.  The one-hour window only selects
    what the check counts. *)
Theorem check_rate_limit_keeps_history
    (h : history) (now now' : datetime) (sid : string) (limit : Z) :
  stored (fst (check_rate_limit h now now' sid limit)) sid
  = (if fst (snd (check_rate_limit h now now' sid limit))
     then stored h sid ++ [now]
     else stored h sid)
  /\ (forall ts : datetime,
        In ts (stored h sid) ->
        In ts (stored (fst (check_rate_limit h now now' sid limit)) sid))
  /\ (forall sid' : string,
        sid' <> sid ->
        fst (check_rate_limit h now now' sid limit) !! sid' = h !! sid').
Proof.
  split; [apply stored_after|]. split.
  - intros ts Hts. rewrite stored_after.
    destruct (fst (snd _)); [apply in_or_app; left|]; exact Hts.
  - intros sid'. apply others_after.
Qed.

(** C3, counterexample. A timestamp two hours old is still stored after
    the check. *)
Lemma check_rate_limit_not_pruned :
  fst (check_rate_limit {["student-1" := [0]]} 7200000000 7200000000
         "student-1" 20) !! "student-1"
  = Some [0; 7200000000]
  /\ recent {["student-1" := [0]]} 7200000000 "student-1" = [].
Proof. split; reflexivity. Qed.

End RateLimiter.

(** ** Properties of [sanitize_student_answer] *)
Module Sanitizer.

Lemma sanitize_loop_spec (patterns : list string) (s : string) :
  sanitize_loop patterns s =
  if existsb (fun pattern => contains (lower pattern) (lower s)) patterns
  then flag_marker +:+ s
  else s.
Proof.
  induction patterns as [|p ps IH]; simpl; [reflexivity|].
  destruct (contains (lower p) (lower s)); simpl; [reflexivity | exact IH].
Qed.

Lemma rstrip_empty (s : string) : rstrip s = "" <-> all_space s = true.
Proof.
  induction s as [|c s IH]; simpl; [tauto|].
  destruct (rstrip s) eqn:E.
  - destruct (isspace c); simpl; [tauto|]. split; discriminate.
  - split; [discriminate|]. intros H. apply andb_true_iff in H as [_ H].
    apply IH in H. discriminate.
Qed.

Lemma rstrip_cons (c : ascii) (s : string) :
  all_space s = false -> rstrip (String c s) = String c (rstrip s).
Proof.
  intros H. simpl. destruct (rstrip s) eqn:E; [|reflexivity].
  apply rstrip_empty in E. congruence.
Qed.

Lemma all_space_app (s1 s2 : string) :
  all_space (s1 +:+ s2) = all_space s1 && all_space s2.
Proof.
  induction s1 as [|c s1 IH]; simpl; [reflexivity|].
  rewrite IH, andb_assoc. reflexivity.
Qed.

Lemma rstrip_app (s1 s2 : string) :
  all_space s2 = false -> rstrip (s1 +:+ s2) = s1 +:+ rstrip s2.
Proof.
  intros H. induction s1 as [|c s1 IH]; [reflexivity|].
  change (String c s1 +:+ s2) with (String c (s1 +:+ s2)).
  rewrite rstrip_cons, IH; [reflexivity|].
  rewrite all_space_app, H. apply andb_false_r.
Qed.

(** What [rstrip] and [lstrip] remove is whitespace at the end and at the
    start. *)
Lemma rstrip_split (s : string) :
  exists post, all_space post = true /\ s = rstrip s +:+ post.
Proof.
  induction s as [|c s (post & Hpost & IH)]; [exists ""; auto|].
  simpl. destruct (rstrip s) eqn:E.
  - apply rstrip_empty in E. destruct (isspace c) eqn:Ec.
    + exists (String c s). simpl. rewrite Ec, E. auto.
    + exists s. auto.
  - exists post. split; [exact Hpost|].
    change (String c s = String c (String a s0 +:+ post)).
    f_equal. exact IH.
Qed.

Lemma lstrip_split (s : string) :
  exists pre, all_space pre = true /\ s = pre +:+ lstrip s.
Proof.
  induction s as [|c s (pre & Hpre & IH)]; [exists ""; auto|].
  simpl. destruct (isspace c) eqn:Ec.
  - exists (String c pre). simpl. rewrite Ec, Hpre. split; [reflexivity|].
    change (String c s = String c (pre +:+ lstrip s)).
    f_equal. exact IH.
  - exists "". auto.
Qed.

Lemma isspace_lower (c : ascii) : isspace c = true -> lower_char c = c.
Proof. destruct c as [[] [] [] [] [] [] [] []]; vm_compute; congruence. Qed.

Lemma contains_not_all_space (c : ascii) (pat s : string) :
  isspace c = false ->
  contains (String c pat) (lower s) = true ->
  all_space s = false.
Proof.
  intros Hc. induction s as [|d s IH]; simpl.
  - discriminate.
  - intros H. apply orb_true_iff in H as [H|H].
    + destruct (Ascii.ascii_dec c (lower_char d)) as [->|]; [|discriminate].
      destruct (isspace d) eqn:Ed; [|reflexivity].
      rewrite (isspace_lower _ Ed) in Hc. congruence.
    + rewrite (IH H). apply andb_false_r.
Qed.

Lemma matches_not_all_space (answer : string) :
  matches_pattern answer = true -> all_space answer = false.
Proof.
  unfold matches_pattern, dangerous_patterns. cbn [existsb].
  rewrite !orb_true_iff.
  intros H. decompose [or] H; clear H;
    match goal with
    | H : contains _ _ = true |- _ =>
        revert H; apply contains_not_all_space; reflexivity
    | H : false = true |- _ => discriminate H
    end.
Qed.

Lemma sanitize_spec (answer : string) :
  sanitize_student_answer answer =
  if matches_pattern answer
  then flag_marker +:+ rstrip answer
  else strip answer.
Proof.
  unfold sanitize_student_answer. rewrite sanitize_loop_spec.
  fold (matches_pattern answer).
  destruct (matches_pattern answer) eqn:E; [|reflexivity].
  unfold strip.
  change (lstrip (flag_marker +:+ answer)) with (flag_marker +:+ answer).
  apply rstrip_app. apply matches_not_all_space. exact E.
Qed.

(** C9, as the code has it. The answer comes back stripped: without its
    leading and trailing whitespace when no pattern occurs in it, and
    behind the flag marker without its trailing whitespace when one does;
    what is removed in either case is whitespace only, at the two ends
    (respectively at the end) of the answer. *)
Theorem sanitize_student_answer_shape (answer : string) :
  sanitize_student_answer answer
  = (if matches_pattern answer
     then flag_marker +:+ rstrip answer
     else strip answer)
  /\ (exists pre post : string,
        all_space pre = true /\ all_space post = true
        /\ answer = pre +:+ strip answer +:+ post)
  /\ (exists post : string,
        all_space post = true /\ answer = rstrip answer +:+ post).
Proof.
  split; [apply sanitize_spec|]. split; [|apply rstrip_split].
  destruct (lstrip_split answer) as (pre & Hpre & E1).
  destruct (rstrip_split (lstrip answer)) as (post & Hpost & E2).
  exists pre, post. repeat split; try assumption.
  unfold strip. rewrite <- E2. exact E1.
Qed.

(** C9, counterexample. No pattern occurs in the answer, and the answer
    does not come back unchanged: its leading blank is gone.  With a
    pattern, the trailing blank is gone. *)
Lemma sanitize_student_answer_strips :
  matches_pattern " 42" = false
  /\ sanitize_student_answer " 42" = "42"
  /\ matches_pattern "system: 42 " = true
  /\ sanitize_student_answer "system: 42 "
     = "[FLAGGED: potential prompt injection] system: 42".
Proof. repeat split; reflexivity. Qed.

End Sanitizer.

(** ** Properties of the constructor of [GradingResult] *)
Module Constructor.

Lemma construct_Some
    (f1 : checked Z) (f2 : checked pyfloat) (f3 : checked Z) (f4 : checked bool)
    (f5 f6 : checked string) (f7 : checked dict)
    (f8 : checked (option ErrorType)) (f9 f10 : checked (list string))
    (f11 : checked string) (f12 : checked (list string)) (r : GradingResult) :
  construct f1 f2 f3 f4 f5 f6 f7 f8 f9 f10 f11 f12 = Some r ->
  f1 = Good (Schemas.question_number r) /\ f2 = Good (points_earned r)
  /\ f3 = Good (points_possible r) /\ f4 = Good (is_correct r)
  /\ f5 = Good (student_answer r) /\ f6 = Good (correct_answer r)
  /\ f7 = Good (points_breakdown r) /\ f8 = Good (error_type r)
  /\ f9 = Good (specific_errors r) /\ f10 = Good (what_was_correct r)
  /\ f11 = Good (feedback r) /\ f12 = Good (data_references r).
Proof.
  unfold construct.
  destruct f1; [|discriminate]. destruct f2; [|discriminate].
  destruct f3; [|discriminate]. destruct f4; [|discriminate].
  destruct f5; [|discriminate]. destruct f6; [|discriminate].
  destruct f7; [|discriminate]. destruct f8; [|discriminate].
  destruct f9; [|discriminate]. destruct f10; [|discriminate].
  destruct f11; [|discriminate]. destruct f12; [|discriminate].
  intros [= <-]. simpl. repeat split.
Qed.

Lemma and_then_Good {A B : Type} (c : checked A) (k : A -> checked B) (b : B) :
  and_then c k = Good b -> exists a, c = Good a /\ k a = Good b.
Proof. destruct c; simpl; [eauto|discriminate]. Qed.

Lemma required_Good {A : Type} (key : string) (kwargs : dict)
    (k : pyval -> checked A) (a : A) :
  required key kwargs k = Good a ->
  exists v, dict_get key kwargs = Some v /\ k v = Good a.
Proof. unfold required. destruct (dict_get key kwargs); [eauto|discriminate]. Qed.

Lemma int_range_Good (lo hi z z' : Z) :
  int_range lo hi z = Good z' -> z' = z /\ lo <= z <= hi.
Proof.
  unfold int_range. destruct (Z.ltb_spec z lo); [discriminate|].
  destruct (Z.ltb_spec hi z); [discriminate|]. intros [= <-]. lia.
Qed.

Lemma float_range_Good (lo hi : Z) (x x' : pyfloat) :
  float_range lo hi x = Good x' ->
  x' = x /\ fleb (of_Z lo) x = true /\ fleb x (of_Z hi) = true.
Proof.
  unfold float_range. destruct (fleb (of_Z lo) x); [|discriminate].
  destruct (fleb x (of_Z hi)); [|discriminate]. simpl. intros [= <-]. auto.
Qed.

Lemma min_length_Good (n : nat) (s s' : string) :
  min_length n s = Good s' -> s' = s /\ (n <= String.length s)%nat.
Proof.
  unfold min_length. destruct (Nat.ltb_spec (String.length s) n); [discriminate|].
  intros [= <-]. auto.
Qed.

Lemma validate_points_Good (x : pyfloat) (values : dict) (x' : pyfloat) :
  validate_points x values = Good x' -> x' = x.
Proof.
  unfold validate_points. destruct (num_value _); [|discriminate].
  destruct (fltb _ _); [discriminate|]. intros [= <-]. reflexivity.
Qed.

(** Evaluation of the constructor on keyword arguments that are given
    with the annotated types. *)
Ltac eval_fields :=
  unfold GradingResult_init;
  unfold field_question_number, field_points_earned, field_points_possible,
    field_is_correct, field_student_answer, field_correct_answer,
    field_points_breakdown, field_error_type, field_specific_errors,
    field_what_was_correct, field_feedback, field_data_references;
  unfold required, optional, typed;
  cbn [dict_get String.eqb Ascii.eqb Bool.eqb parse_answer];
  repeat change (VList []) with (VList (map VStr []));
  repeat change (VList [VStr ?a]) with (VList (map VStr [a]));
  repeat change (VList [VStr ?a; VStr ?b; VStr ?c])
    with (VList (map VStr [a; b; c]));
  rewrite ?validate_int_int, ?validate_float_float, ?validate_bool_bool,
    ?validate_str_str, ?validate_dict_dict, ?validate_str_list_list;
  cbn [and_then].

Section WithRuntime.
Context `{RT : Runtime}.

Lemma validate_breakdown_Good (d values d' : dict) :
  validate_breakdown d values = Good d' ->
  d' = d
  /\ exists total,
       py_sum (dict_values d) = Some total
       /\ breakdown_mismatch total
            (dict_get_default "points_earned" (VInt 0) values) = Some false.
Proof.
  unfold validate_breakdown. destruct (py_sum _) as [total|]; [|discriminate].
  destruct (breakdown_mismatch _ _) as [[]|] eqn:E; try discriminate.
  intros [= <-]. split; [reflexivity|]. exists total. auto.
Qed.

(** What a returned object says about the fields that carry a check. *)
Lemma init_Returned (kwargs : dict) (r : GradingResult) :
  GradingResult_init kwargs = Returned r ->
  field_question_number kwargs = Good (Schemas.question_number r)
  /\ field_points_earned kwargs
       [("question_number", VInt (Schemas.question_number r))]
     = Good (points_earned r)
  /\ field_points_breakdown kwargs (values_at_breakdown r)
     = Good (points_breakdown r)
  /\ field_feedback kwargs = Good (feedback r).
Proof.
  unfold GradingResult_init. cbv zeta.
  destruct (_ || _); [discriminate|].
  destruct (construct _ _ _ _ _ _ _ _ _ _ _ _) as [r'|] eqn:C; [|discriminate].
  intros [= ->]. apply construct_Some in C.
  destruct C as (C1 & C2 & C3 & C4 & C5 & C6 & C7 & C8 & C9 & C10 & C11 & C12).
  rewrite C1 in C2, C7. rewrite C2, C3, C4, C5, C6 in C7.
  cbn [record_value app] in C2, C7. auto.
Qed.

(** The constructor returns schema-valid objects only. *)
Lemma init_schema_valid (kwargs : dict) (r : GradingResult) :
  GradingResult_init kwargs = Returned r -> schema_valid r = true.
Proof.
  intros H. apply init_Returned in H as (H1 & H2 & H3 & H4).
  apply required_Good in H1 as (v1 & _ & H1).
  apply and_then_Good in H1 as (z & _ & H1).
  apply int_range_Good in H1 as [<- H1].
  apply required_Good in H2 as (v2 & _ & H2).
  apply and_then_Good in H2 as (x & H2 & H2').
  apply and_then_Good in H2 as (x0 & _ & H2).
  apply validate_points_Good in H2'. subst x.
  apply float_range_Good in H2 as (<- & Hlo & Hhi).
  apply required_Good in H3 as (v3 & _ & H3).
  apply and_then_Good in H3 as (d & _ & H3).
  apply validate_breakdown_Good in H3 as (<- & total & Hsum & Hmis).
  apply required_Good in H4 as (v4 & _ & H4).
  apply and_then_Good in H4 as (s & _ & H4).
  apply min_length_Good in H4 as [<- H4].
  unfold schema_valid. rewrite Hlo, Hhi, Hsum.
  change (dict_get_default "points_earned" (VInt 0) (values_at_breakdown r))
    with (VFloat (points_earned r)) in Hmis.
  rewrite Hmis.
  repeat (apply andb_true_intro; split);
    try reflexivity; try (apply Z.leb_le; lia).
  apply Nat.leb_le. exact H4.
Qed.

Lemma fallback_feedback_length (em : string) :
  (String.length (fallback_feedback em) <? 50)%nat = false.
Proof. unfold fallback_feedback. cbn. reflexivity. Qed.

(** What [create_fallback_result] does with an integer question number
    and a string answer. *)
Lemma create_fallback_result_spec (qn : Z) (sa em : string) :
  create_fallback_result (VInt qn) (VStr sa) em =
  if qn <? 1 then Raised (ValidationError [("question_number", NotGe 1)])
  else if 10 <? qn then Raised (ValidationError [("question_number", NotLe 10)])
  else Returned (fallback_object qn sa em).
Proof.
  unfold create_fallback_result. eval_fields.
  fold (fallback_feedback em).
  unfold min_length. rewrite fallback_feedback_length.
  change (float_range 0 10 (of_Z 0)) with (@Good pyfloat (of_Z 0)).
  cbn [and_then validate_error_type ErrorType_of_string].
  change (validate_points (of_Z 0) []) with (@Good pyfloat (of_Z 0)).
  assert (Hb : forall values,
    dict_get_default "points_earned" (VInt 0) values = VFloat (of_Z 0) ->
    validate_breakdown
      [("correct_answer", VInt 0); ("showing_work", VInt 0);
       ("interpretation", VInt 0)] values
    = Good [("correct_answer", VInt 0); ("showing_work", VInt 0);
            ("interpretation", VInt 0)]).
  { intros values Hv. unfold validate_breakdown. rewrite Hv. reflexivity. }
  unfold int_range.
  destruct (qn <? 1); [|destruct (10 <? qn)]; cbn [record_value app];
    (rewrite Hb by reflexivity); unfold type_error_escapes;
    rewrite !andb_false_r; reflexivity.
Qed.

End WithRuntime.

End Constructor.

(** ** Properties of the guards and of the orchestrator *)
Module Pipeline.

Import Constructor.

Lemma when_In (b : bool) (m x : string) : In x (when b m) <-> b = true /\ x = m.
Proof. destruct b; simpl; intuition congruence. Qed.

Lemma app_cons_shape {A : Type} (l1 : list A) (x : A) (l2 : list A) :
  exists e es, l1 ++ x :: l2 = e :: es.
Proof. destruct l1; simpl; eauto. Qed.

Lemma dict_get_set (key : string) (v : pyval) (d : dict) :
  dict_get key (dict_set key v d) = Some v.
Proof.
  induction d as [|[k w] d IH]; simpl.
  - rewrite String.eqb_refl. reflexivity.
  - destruct (String.eqb k key) eqn:E; simpl; rewrite E; [reflexivity|exact IH].
Qed.







(** *** The policy enforcer *)

Lemma partial_credit_iff (r : GradingResult) :
  In partial_credit_violation (snd (enforce_grading_policies r))
  <-> error_type r = Some wrong_calculation
      /\ py_eq_int (dict_get_default "showing_work" (VInt 0)
                      (points_breakdown r)) 0 = true.
Proof.
  unfold enforce_grading_policies. cbn [snd].
  rewrite !in_app_iff, !when_In. split.
  - intros [[H _]|[[_ H]|[[_ H]|[_ H]]]].
    + destruct (error_type r) as [[]|]; try discriminate. auto.
    + cbn in H. discriminate H.
    + discriminate H.
    + discriminate H.
  - intros [E H]. left. rewrite E. auto.
Qed.

(** C8. A result whose [error_type] is [wrong_calculation] and whose
    breakdown gives 0 to [showing_work], or does not have the category,
    gets the violation that names the missing partial credit for
    methodology, and is not compliant; the same result with
    [showing_work] set to 1 does not get that violation.  The violation is
    raised in exactly these cases. *)
Theorem enforce_grading_policies_partial_credit (r : GradingResult) :
  (error_type r = Some wrong_calculation ->
   dict_get "showing_work" (points_breakdown r) = None
   \/ (exists v : pyval,
         dict_get "showing_work" (points_breakdown r) = Some v
         /\ py_eq_int v 0 = true) ->
   In partial_credit_violation (snd (enforce_grading_policies r))
   /\ fst (enforce_grading_policies r) = false)
  /\ ~ In partial_credit_violation
         (snd (enforce_grading_policies (with_showing_work r (VInt 1))))
  /\ (In partial_credit_violation (snd (enforce_grading_policies r))
      <-> error_type r = Some wrong_calculation
          /\ py_eq_int (dict_get_default "showing_work" (VInt 0)
                          (points_breakdown r)) 0 = true).
Proof.
  split; [|split; [|apply partial_credit_iff]].
  - intros E H.
    assert (Hin : In partial_credit_violation
                    (snd (enforce_grading_policies r))).
    { apply partial_credit_iff. split; [exact E|]. unfold dict_get_default.
      destruct H as [->|(v & -> & Hv)]; [reflexivity|exact Hv]. }
    split; [exact Hin|].
    unfold enforce_grading_policies in *. cbn [fst snd] in *.
    destruct (_ ++ _); [destruct Hin|reflexivity].
  - rewrite partial_credit_iff. intros [_ H].
    unfold with_showing_work, dict_get_default in H.
    cbn [points_breakdown] in H.
    rewrite dict_get_set in H. discriminate H.
Qed.

Lemma enforce_grading_policies_partial_credit_witness :
  In partial_credit_violation
     (snd (enforce_grading_policies (with_showing_work test_result (VInt 0))))
  /\ fst (enforce_grading_policies (with_showing_work test_result (VInt 0)))
     = false.
Proof.
  apply (proj1 (enforce_grading_policies_partial_credit
                  (with_showing_work test_result (VInt 0)))).
  - reflexivity.
  - right. exists (VInt 0). split; reflexivity.
Defined.

Section WithRuntime.
Context `{RT : Runtime}.

(** *** The fallback generator *)

Lemma fallback_object_valid (qn : Z) (sa em : string) :
  1 <= qn <= 10 -> schema_valid (fallback_object qn sa em) = true.
Proof.
  intros H. unfold schema_valid. cbn [Schemas.question_number points_earned
    points_breakdown feedback fallback_object].
  replace (1 <=? qn) with true by (symmetry; apply Z.leb_le; lia).
  replace (qn <=? 10) with true by (symmetry; apply Z.leb_le; lia).
  pose proof (fallback_feedback_length em) as L.
  apply Nat.ltb_ge in L. apply Nat.leb_le in L. rewrite L. reflexivity.
Qed.

(** C5, as the code has it. For a question number from 1 to 10,
    [create_fallback_result] returns the object that its call spells out,
    whatever the answer and the error message: schema-valid, zero points,
    [incomplete_work], the three errors with the message in the middle,
    nothing correct, the feedback template around the message, and the
    one data reference. *)
Theorem create_fallback_result_valid (qn : Z) (sa em : string) :
  1 <= qn <= 10 ->
  exists r : GradingResult,
    create_fallback_result (VInt qn) (VStr sa) em = Returned r
    /\ schema_valid r = true
    /\ Schemas.question_number r = qn
    /\ student_answer r = sa
    /\ points_earned r = of_Z 0
    /\ error_type r = Some incomplete_work
    /\ specific_errors r
       = [ "Automated grading failed";
           "Error: " +:+ em;
           "This submission requires manual review" ]
    /\ what_was_correct r = []
    /\ feedback r = fallback_feedback em
    /\ data_references r = ["[MANUAL REVIEW REQUIRED]"].
Proof.
  intros H. exists (fallback_object qn sa em).
  split; [|split; [apply fallback_object_valid; exact H|repeat split]].
  rewrite create_fallback_result_spec.
  replace (qn <? 1) with false by (symmetry; apply Z.ltb_ge; lia).
  replace (10 <? qn) with false by (symmetry; apply Z.ltb_ge; lia).
  reflexivity.
Qed.

(** *** The orchestrator on a submission without a valid question number *)

Lemma invalid_number_rejected (submission : dict) :
  invalid_number submission ->
  exists err errs,
    validate_student_submission submission = (false, err :: errs).
Proof.
  intros H. unfold validate_student_submission.
  destruct H as [E|(n & E & Hn)]; rewrite E.
  - cbn [app]. eexists _, _. reflexivity.
  - cbn [app isinstance_int negb int_of orb].
    replace ((n <? 1) || (10 <? n)) with true.
    + cbn [when app].
      match goal with
      | |- context [?a ++ ?x :: ?b] =>
          destruct (app_cons_shape a x b) as (e & es & ->)
      end.
      eexists _, _. reflexivity.
    + symmetry. apply orb_true_iff.
      destruct Hn; [left|right]; apply Z.ltb_lt; assumption.
Qed.

(** The fallback of the first two gates is built from
    [submission.get('question_number', 0)]. *)
Lemma validate_and_grade_early (h : history) (now now' : datetime)
    (submission response : dict) (sid : option string) :
  invalid_number submission ->
  exists (em : string) (messages : list string),
    snd (validate_and_grade h now now' submission response sid)
    = bind (create_fallback_result
              (dict_get_default "question_number" (VInt 0) submission)
              (VStr (py_str (dict_get_default "student_answer" (VStr "")
                               submission)))
              em)
           (fun fallback => Returned (false, fallback, messages)).
Proof.
  intros H. unfold validate_and_grade.
  destruct (rate_limit_step h now now' sid) as [h1 [msg|]]; cbn [snd].
  - eexists _, _. reflexivity.
  - destruct (invalid_number_rejected submission H) as (err & errs & ->).
    cbn [negb first bind]. eexists _, _. reflexivity.
Qed.

(** C1, where the code departs from it. On a submission that has no
    [question_number], or has 0 or 11 for it, [validate_and_grade] does
    not return: the fallback is constructed with the number 0 (the
    default of the lookup), respectively with the number given, the
    constructor of [GradingResult] refuses it, and the [ValidationError]
    leaves the orchestrator.  This holds for every answer, every model
    response, with or without a submitter id, and whatever the rate
    limiter has stored. *)
Theorem validate_and_grade_unguarded_fallback
    (h : history) (now now' : datetime) (answer : pyval) (response : dict)
    (sid : option string) :
  snd (validate_and_grade h now now'
         [("student_answer", answer)] response sid)
  = Raised (ValidationError [("question_number", NotGe 1)])
  /\ snd (validate_and_grade h now now'
            [("question_number", VInt 0); ("student_answer", answer)]
            response sid)
     = Raised (ValidationError [("question_number", NotGe 1)])
  /\ snd (validate_and_grade h now now'
            [("question_number", VInt 11); ("student_answer", answer)]
            response sid)
     = Raised (ValidationError [("question_number", NotLe 10)]).
Proof.
  repeat split.
  - destruct (validate_and_grade_early h now now'
                [("student_answer", answer)] response sid)
      as (em & messages & ->); [left; reflexivity|].
    unfold dict_get_default at 1. cbn [dict_get String.eqb Ascii.eqb Bool.eqb].
    rewrite create_fallback_result_spec. reflexivity.
  - destruct (validate_and_grade_early h now now'
                [("question_number", VInt 0); ("student_answer", answer)]
                response sid)
      as (em & messages & ->); [right; exists 0; split; [reflexivity|lia]|].
    unfold dict_get_default at 1. cbn [dict_get String.eqb Ascii.eqb Bool.eqb].
    rewrite create_fallback_result_spec. reflexivity.
  - destruct (validate_and_grade_early h now now'
                [("question_number", VInt 11); ("student_answer", answer)]
                response sid)
      as (em & messages & ->); [right; exists 11; split; [reflexivity|lia]|].
    unfold dict_get_default at 1. cbn [dict_get String.eqb Ascii.eqb Bool.eqb].
    rewrite create_fallback_result_spec. reflexivity.
Qed.

End WithRuntime.

(** C5, counterexample. With the question number 0 the constructor
    refuses the fallback, and [create_fallback_result] raises. *)
Lemma create_fallback_result_question_zero :
  @create_fallback_result Sample.runtime (VInt 0) (VStr "$6,500") "boom"
  = Raised (ValidationError [("question_number", NotGe 1)]).
Proof. reflexivity. Qed.

Lemma create_fallback_result_valid_witness :
  exists r : GradingResult,
    @create_fallback_result Sample.runtime (VInt 3) (VStr "$6,500") "boom"
    = Returned r
    /\ schema_valid r = true
    /\ Schemas.question_number r = 3
    /\ student_answer r = "$6,500"
    /\ points_earned r = of_Z 0
    /\ error_type r = Some incomplete_work
    /\ specific_errors r
       = [ "Automated grading failed";
           "Error: " +:+ "boom";
           "This submission requires manual review" ]
    /\ what_was_correct r = []
    /\ feedback r = fallback_feedback "boom"
    /\ data_references r = ["[MANUAL REVIEW REQUIRED]"].
Proof.
  apply (@create_fallback_result_valid Sample.runtime 3 "$6,500" "boom").
  lia.
Defined.

End Pipeline.

(** ** Properties of the output guard, and what follows it *)
Module OutputGuard.

Import Constructor Pipeline.

(** Only numbers add up. *)
Lemma py_add_num (a v s : pyval) :
  py_add a v = Some s -> num_value v <> None /\ num_value s <> None.
Proof.
  destruct a, v; simpl; try discriminate; intros [= <-]; simpl;
    split; discriminate.
Qed.

Lemma fold_sum_None (l : list pyval) :
  fold_left (fun acc v => match acc with Some a => py_add a v | None => None end)
            l None = None.
Proof. induction l; simpl; auto. Qed.

Lemma py_sum_numbers (l : list pyval) (a total : pyval) :
  fold_left (fun acc v => match acc with Some a => py_add a v | None => None end)
            l (Some a) = Some total ->
  Forall (fun v => num_value v <> None) l.
Proof.
  revert a. induction l as [|v l IH]; intros a; simpl; [constructor|].
  destruct (py_add a v) as [s|] eqn:E.
  - intros H. constructor; [apply (py_add_num _ _ _ E)|]. eapply IH; eauto.
  - rewrite fold_sum_None. discriminate.
Qed.

Lemma any_positive_returns (l : list pyval) :
  Forall (fun v => num_value v <> None) l ->
  exists b, any_positive l = Returned b.
Proof.
  induction 1 as [|v l Hv _ IH]; simpl; [eauto|].
  unfold py_gt_int. destruct (num_value v); [|congruence].
  destruct (fltb _ _); eauto.
Qed.

Lemma schema_valid_parts (r : GradingResult) :
  schema_valid r = true ->
  exists total,
    py_sum (dict_values (points_breakdown r)) = Some total
    /\ breakdown_mismatch total (VFloat (points_earned r)) = Some false
    /\ (50 <= String.length (feedback r))%nat
    /\ fleb (points_earned r) (of_Z 10) = true.
Proof.
  unfold schema_valid. rewrite !andb_true_iff.
  intros [[[[[_ _] _] Hhi] Hsum] Hlen].
  destruct (py_sum _) as [total|]; [|discriminate].
  destruct (breakdown_mismatch _ _) as [[]|] eqn:E; try discriminate.
  exists total. repeat split; auto. apply Nat.leb_le. exact Hlen.
Qed.

Section WithRuntime.
Context `{RT : Runtime}.

(** Once the constructor has returned, the guard can only add the errors
    of its stages 2, 3 and 6: the checks of the breakdown and of the
    length of the feedback have been made by the constructor. *)
Lemma validate_llm_response_Returned (response : dict) (qnum : pyval)
    (r : GradingResult) :
  GradingResult_init response = Returned r ->
  validate_llm_response response qnum =
  let errors :=
    when (negb (py_eq_int qnum (Schemas.question_number r)))
         ("Question number mismatch: expected " +:+ py_str qnum
          +:+ ", got " +:+ str_of_Z (Schemas.question_number r))
    ++ when (fltb (of_Z (points_possible r)) (points_earned r))
         ("Points earned (" +:+ py_str (VFloat (points_earned r))
          +:+ ") exceeds points possible ("
          +:+ str_of_Z (points_possible r) +:+ ")")
    ++ placeholder_errors (feedback r) in
  Returned (is_empty errors, errors, Some r).
Proof.
  intros H. unfold validate_llm_response. rewrite H.
  apply init_schema_valid in H.
  apply schema_valid_parts in H as (total & -> & -> & Hlen & _).
  replace (String.length (feedback r) <? 20)%nat with false
    by (symmetry; apply Nat.ltb_ge; lia).
  reflexivity.
Qed.

(** The guard always returns; without an object it reports one error,
    and it says [ok] only with the object of the constructor and no
    error. *)
Lemma validate_llm_response_total (response : dict) (qnum : pyval) :
  exists ok errors result,
    validate_llm_response response qnum = Returned (ok, errors, result)
    /\ (result = None -> ok = false /\ exists e, errors = [e])
    /\ (ok = true ->
        errors = []
        /\ exists r, result = Some r
                     /\ GradingResult_init response = Returned r).
Proof.
  destruct (GradingResult_init response) as [r|e] eqn:E.
  - rewrite (validate_llm_response_Returned _ _ _ E). cbv zeta.
    eexists _, _, _. split; [reflexivity|]. split; [discriminate|].
    intros H. split; [|eauto].
    destruct (_ ++ _); [reflexivity|discriminate].
  - unfold validate_llm_response. rewrite E.
    destruct e; eexists _, _, _; (split; [reflexivity|]); split; eauto;
      discriminate.
Qed.

Lemma check_consistency_returns (r : GradingResult) :
  schema_valid r = true ->
  exists warnings,
    check_consistency r = Returned (is_empty warnings, warnings).
Proof.
  intros H. apply schema_valid_parts in H as (total & Hsum & _).
  apply py_sum_numbers in Hsum.
  apply any_positive_returns in Hsum as [b Hb].
  unfold check_consistency.
  destruct (feqb _ _); [rewrite Hb|]; cbn [bind]; eauto.
Qed.



(** The constructor accepts 7 points out of 5. *)
Lemma init_over_response : GradingResult_init over_response = Returned over_result.
Proof.
  unfold over_response, test_response.
  cbn [dict_set String.eqb Ascii.eqb Bool.eqb].
  eval_fields.
  change (float_range 0 10 (of_Z 7)) with (@Good pyfloat (of_Z 7)).
  change (int_range 1 10 1) with (@Good Z 1).
  cbn [and_then record_value app].
  change (validate_points (of_Z 7) [("question_number", VInt 1)])
    with (@Good pyfloat (of_Z 7)).
  cbn [and_then record_value app].
  unfold validate_breakdown.
  cbn [py_sum dict_values map snd fold_left py_add Z.add Pos.add Pos.succ
       dict_get_default dict_get String.eqb Ascii.eqb Bool.eqb].
  change (breakdown_mismatch (VInt 7) (VFloat (of_Z 7))) with (Some false).
  cbn [min_length String.length Nat.ltb Nat.leb validate_error_type
       ErrorType_of_string String.eqb Ascii.eqb Bool.eqb].
  unfold type_error_escapes. rewrite !andb_false_r.
  reflexivity.
Qed.

(** C10, where the code departs from it. [validate_points] runs while
    [points_earned] is validated, before [points_possible], which is
    declared after it, is in [values]: the lookup always yields the
    default 10.  So the constructor returns an object for 7 points out of
    5, and the third stage of the guard adds its error: the branch is
    reached. *)
Theorem validate_llm_response_points_branch_reached :
  validate_llm_response over_response (VInt 1)
  = Returned (false,
              ["Points earned (" +:+ py_str (VFloat (of_Z 7))
               +:+ ") exceeds points possible (" +:+ str_of_Z 5 +:+ ")"],
              Some over_result).
Proof.
  unfold validate_llm_response. rewrite init_over_response. reflexivity.
Qed.

(** C7. When the rate limiter and the input guard let the submission
    through and the output guard says ok, the orchestrator returns
    success with the object of the guard, whatever the consistency
    checker and the policy enforcer find: the check of consistency
    returns, and the warnings and the violations are messages between the
    two lines of the guards and the closing line, nothing else. *)
Theorem validate_and_grade_accepts_validated
    (h : history) (now now' : datetime) (submission response : dict)
    (sid : option string) (qnum : pyval) (errors : list string)
    (result : GradingResult) :
  snd (rate_limit_step h now now' sid) = None ->
  fst (validate_student_submission submission) = true ->
  dict_get "question_number" submission = Some qnum ->
  validate_llm_response response qnum = Returned (true, errors, Some result) ->
  exists warnings : list string,
    check_consistency result = Returned (is_empty warnings, warnings)
    /\ snd (validate_and_grade h now now' submission response sid)
       = Returned
           (true, result,
            [ check_mark +:+ " Input validation passed";
              check_mark +:+ " Output validation passed" ]
            ++ map (fun warn => warning_sign +:+ "  Consistency: " +:+ warn)
                   warnings
            ++ map (fun viol => warning_sign +:+ "  Policy: " +:+ viol)
                   (snd (enforce_grading_policies result))
            ++ [ check_mark +:+ " Grading complete: "
                 +:+ py_str (VFloat (points_earned result)) +:+ "/"
                 +:+ str_of_Z (points_possible result) +:+ " points" ]).
Proof.
  intros Hrate Hin Hq Hout.
  assert (Hinit : GradingResult_init response = Returned result).
  { destruct (validate_llm_response_total response qnum)
      as (ok & errs & res & E & _ & Hok).
    rewrite E in Hout. injection Hout as -> -> ->.
    destruct (Hok eq_refl) as (_ & r & [= ->] & Hr). exact Hr. }
  destruct (check_consistency_returns result (init_schema_valid _ _ Hinit))
    as (warnings & Hc).
  exists warnings. split; [exact Hc|].
  unfold validate_and_grade.
  destruct (rate_limit_step h now now' sid) as [h1 denied].
  cbn [snd] in *. subst denied.
  destruct (validate_student_submission submission) as [valid input_errors].
  cbn [fst] in Hin. subst valid. cbn [negb].
  unfold getitem. rewrite Hq. cbn [bind]. rewrite Hout. cbn [bind].
  rewrite Hc. cbn [bind].
  unfold enforce_grading_policies. cbn [snd].
  set (violations := _ ++ _ ++ _ ++ _).
  replace (if negb (is_empty warnings)
           then map (fun warn => warning_sign +:+ "  Consistency: " +:+ warn)
                    warnings
           else [])
    with (map (fun warn => warning_sign +:+ "  Consistency: " +:+ warn) warnings)
    by (destruct warnings; reflexivity).
  replace (if negb (is_empty violations)
           then map (fun viol => warning_sign +:+ "  Policy: " +:+ viol)
                    violations
           else [])
    with (map (fun viol => warning_sign +:+ "  Policy: " +:+ viol) violations)
    by (destruct violations; reflexivity).
  rewrite <- !app_assoc. reflexivity.
Qed.

End WithRuntime.



Lemma validate_and_grade_accepts_validated_witness :
  exists warnings : list string,
    @check_consistency Sample.runtime warned_result
    = Returned (is_empty warnings, warnings)
    /\ snd (@validate_and_grade Sample.runtime ∅ 0 0 test_submission
              warned_response None)
       = Returned
           (true, warned_result,
            [ check_mark +:+ " Input validation passed";
              check_mark +:+ " Output validation passed" ]
            ++ map (fun warn => warning_sign +:+ "  Consistency: " +:+ warn)
                   warnings
            ++ map (fun viol => warning_sign +:+ "  Policy: " +:+ viol)
                   (snd (enforce_grading_policies warned_result))
            ++ [ check_mark +:+ " Grading complete: "
                 +:+ Sample.sample_str (VFloat (points_earned warned_result))
                 +:+ "/" +:+ str_of_Z (points_possible warned_result)
                 +:+ " points" ]).
Proof.
  apply (@validate_and_grade_accepts_validated Sample.runtime ∅ 0 0
           test_submission warned_response None (VInt 1) []);
    reflexivity.
Defined.

End OutputGuard.

(** ** Properties of the input guard *)
Module InputGuard.

Lemma is_empty_app {A : Type} (l1 l2 : list A) :
  is_empty (l1 ++ l2) = is_empty l1 && is_empty l2.
Proof. destruct l1; reflexivity. Qed.

Lemma is_empty_when (b : bool) (m : string) : is_empty (when b m) = negb b.
Proof. destruct b; reflexivity. Qed.

Lemma is_empty_nil {A : Type} (l : list A) : is_empty l = true <-> l = [].
Proof. destruct l; simpl; split; congruence. Qed.

Lemma is_empty_false {A : Type} (l : list A) :
  is_empty l = false -> exists x xs, l = x :: xs.
Proof. destruct l; [discriminate|eauto]. Qed.

Lemma when_nil (b : bool) (m : string) : when b m = [] -> b = false.
Proof. destruct b; [discriminate|reflexivity]. Qed.

Lemma length_zero_empty (s : string) :
  (String.length s =? 0)%nat = true <-> s = "".
Proof. destruct s; simpl; split; congruence. Qed.

Section WithRuntime.
Context `{RT : Runtime}.

(** X1. [validate_student_submission] accepts a submission exactly when
    it has a question number that is an [int] from 1 to 10 and an answer
    that is not [None], is not a blank string and is at most 5000
    characters long once converted with [str]; a missing key, a number
    out of range or of another type, and an empty or oversize answer are
    each refused. *)
Theorem validate_student_submission_accepts (submission : dict) :
  fst (validate_student_submission submission) = true
  <-> acceptable submission.
Proof.
  unfold validate_student_submission, acceptable. cbn [fst].
  rewrite !is_empty_app, !andb_true_iff.
  destruct (dict_get "question_number" submission) as [qnum|];
    destruct (dict_get "student_answer" submission) as [answer|].
  - rewrite !is_empty_when. split.
    + intros (Hm1 & Hm2 & Hq & Ha & Hl).
      exists qnum, answer.
      apply negb_true_iff in Hq. apply orb_false_iff in Hq as [Hq H10].
      apply orb_false_iff in Hq as [Hi H1]. apply negb_false_iff in Hi.
      apply Z.ltb_ge in H1, H10. apply negb_true_iff, Nat.ltb_ge in Hl.
      repeat split; auto; try lia.
      * intros ->. discriminate Hm2.
      * intros a ->. intros Hs. rewrite Hs in Ha. discriminate Ha.
    + intros (q & a & [= <-] & Hi & Hr & [= <-] & Hn & Hs & Hl).
      repeat split.
      * destruct qnum; try discriminate Hi; reflexivity.
      * destruct answer; try reflexivity. congruence.
      * rewrite Hi. simpl. apply negb_true_iff, orb_false_iff.
        split; apply Z.ltb_ge; lia.
      * destruct answer; try reflexivity; try congruence.
        destruct (String.length (strip s) =? 0)%nat eqn:E.
        -- apply length_zero_empty in E. exfalso. eapply Hs; eauto.
        -- simpl. destruct s; [exfalso; apply (Hs ""); reflexivity|reflexivity].
      * apply negb_true_iff, Nat.ltb_ge. exact Hl.
  - split; [intros (_ & H & _); discriminate H|].
    intros (q & a & _ & _ & _ & H & _). discriminate H.
  - split; [intros (H & _); discriminate H|].
    intros (q & a & H & _). discriminate H.
  - split; [intros (H & _); discriminate H|].
    intros (q & a & H & _). discriminate H.
Qed.

End WithRuntime.

End InputGuard.

(** ** Properties of the constructor of [GradingResult] *)
Module Construction.

Import Constructor Pipeline OutputGuard.

Lemma optional_Good {A : Type} (key : string) (kwargs : dict) (d : A)
    (k : pyval -> checked A) (a : A) :
  optional key kwargs d k = Good a ->
  (dict_get key kwargs = None /\ a = d)
  \/ exists v, dict_get key kwargs = Some v /\ k v = Good a.
Proof.
  unfold optional. destruct (dict_get key kwargs); [eauto|].
  intros [= <-]. auto.
Qed.

Lemma typed_Good {A : Type} (validate : pyval -> option A) (v : pyval) (a : A) :
  typed validate v = Good a -> validate v = Some a.
Proof. unfold typed. destruct (validate v); congruence. Qed.


Section WithRuntime.
Context `{RT : Runtime}.

(** The fields of a returned object, each as its validation gave it. *)
Lemma init_fields (kwargs : dict) (r : GradingResult) :
  GradingResult_init kwargs = Returned r ->
  field_question_number kwargs = Good (Schemas.question_number r)
  /\ field_points_earned kwargs
       [("question_number", VInt (Schemas.question_number r))]
     = Good (points_earned r)
  /\ field_points_possible kwargs = Good (points_possible r)
  /\ field_is_correct kwargs = Good (is_correct r)
  /\ field_student_answer kwargs = Good (student_answer r)
  /\ field_correct_answer kwargs = Good (correct_answer r)
  /\ field_points_breakdown kwargs (values_at_breakdown r)
     = Good (points_breakdown r)
  /\ field_error_type kwargs = Good (error_type r)
  /\ field_specific_errors kwargs = Good (specific_errors r)
  /\ field_what_was_correct kwargs = Good (what_was_correct r)
  /\ field_feedback kwargs = Good (feedback r)
  /\ field_data_references kwargs = Good (data_references r).
Proof.
  unfold GradingResult_init. cbv zeta.
  destruct (_ || _); [discriminate|].
  destruct (construct _ _ _ _ _ _ _ _ _ _ _ _) as [r'|] eqn:C; [|discriminate].
  intros [= ->]. apply construct_Some in C.
  destruct C as (C1 & C2 & C3 & C4 & C5 & C6 & C7 & C8 & C9 & C10 & C11 & C12).
  rewrite C1 in C2, C7. rewrite C2, C3, C4, C5, C6 in C7.
  cbn [record_value app] in C2, C7. repeat split; assumption.
Qed.

Lemma init_required (kwargs : dict) (r : GradingResult) (key : string) :
  GradingResult_init kwargs = Returned r ->
  In key required_keys -> dict_get key kwargs <> None.
Proof.
  intros H Hk. apply init_fields in H.
  destruct H as (C1 & C2 & C3 & C4 & C5 & C6 & C7 & C8 & C9 & C10 & C11 & C12).
  unfold required_keys in Hk. simpl in Hk.
  decompose [or] Hk; subst; try contradiction;
    [ apply required_Good in C1 as (v & -> & _)
    | apply required_Good in C2 as (v & -> & _)
    | apply required_Good in C4 as (v & -> & _)
    | apply required_Good in C5 as (v & -> & _)
    | apply required_Good in C6 as (v & -> & _)
    | apply required_Good in C7 as (v & -> & _)
    | apply required_Good in C11 as (v & -> & _) ]; discriminate.
Qed.

(** X2. A response that lacks one of the seven required fields of
    [GradingResult] fails [validate_llm_response] at its first stage,
    whatever else it holds: the answer is not valid, carries the single
    message of the construction failure, and carries no result. *)
Theorem validate_llm_response_missing_field
    (response : dict) (expected : pyval) (key : string) :
  In key required_keys ->
  dict_get key response = None ->
  exists e : string,
    validate_llm_response response expected = Returned (false, [e], None).
Proof.
  intros Hk Hnone.
  destruct (GradingResult_init response) as [r|e] eqn:E.
  - exfalso. apply (init_required _ _ _ E Hk Hnone).
  - unfold validate_llm_response. rewrite E. destruct e; eauto.
Qed.

(** X3. The fields of [GradingResult] that have defaults get them when
    the keyword is absent: 10 points possible, no error type, and empty
    lists of errors, of correct parts and of data references. *)
Theorem GradingResult_init_defaults (kwargs : dict) (r : GradingResult) :
  GradingResult_init kwargs = Returned r ->
  (dict_get "points_possible" kwargs = None -> points_possible r = 10)
  /\ (dict_get "error_type" kwargs = None -> error_type r = None)
  /\ (dict_get "specific_errors" kwargs = None -> specific_errors r = [])
  /\ (dict_get "what_was_correct" kwargs = None -> what_was_correct r = [])
  /\ (dict_get "data_references" kwargs = None -> data_references r = []).
Proof.
  intros H. apply init_fields in H.
  destruct H as (C1 & C2 & C3 & C4 & C5 & C6 & C7 & C8 & C9 & C10 & C11 & C12).
  repeat split; intros Hn;
    [ apply optional_Good in C3 as [[_ ->]|(v & Hv & _)]
    | apply optional_Good in C8 as [[_ ->]|(v & Hv & _)]
    | apply optional_Good in C9 as [[_ ->]|(v & Hv & _)]
    | apply optional_Good in C10 as [[_ ->]|(v & Hv & _)]
    | apply optional_Good in C12 as [[_ ->]|(v & Hv & _)] ];
    congruence.
Qed.


End WithRuntime.

Lemma validate_llm_response_missing_field_witness :
  exists e : string,
    @validate_llm_response Sample.runtime
      [("question_number", VInt 1); ("points_earned", VFloat (of_Z 7))]
      (VInt 1)
    = Returned (false, [e], None).
Proof.
  apply (@validate_llm_response_missing_field Sample.runtime
           [("question_number", VInt 1); ("points_earned", VFloat (of_Z 7))]
           (VInt 1) "feedback").
  - simpl. auto 10.
  - reflexivity.
Defined.

Lemma GradingResult_init_defaults_witness :
  points_possible minimal_result = 10
  /\ error_type minimal_result = None
  /\ specific_errors minimal_result = [].
Proof.
  destruct (@GradingResult_init_defaults Sample.runtime minimal_response
              minimal_result eq_refl) as (H1 & H2 & H3 & _).
  split; [apply H1|split; [apply H2|apply H3]]; reflexivity.
Defined.


End Construction.

(** ** Properties of the output guard, the fallback and the policies *)
Module Audits.

Import Constructor Pipeline OutputGuard InputGuard Construction.

Lemma placeholder_errors_nil (feedback : string) :
  placeholder_errors feedback = [] <-> no_placeholder feedback.
Proof.
  unfold placeholder_errors, no_placeholder, placeholder_indicators.
  cbn [flat_map]. split.
  - intros H ind Hin.
    repeat match type of H with
    | when ?b _ ++ _ = [] =>
        apply app_eq_nil in H; destruct H as [?H H]
    end.
    simpl in Hin.
    decompose [or] Hin; subst; try contradiction;
      match goal with
      | H : when ?b _ = [] |- ?b = false =>
          destruct b; [discriminate H|reflexivity]
      end.
  - intros H.
    rewrite (H "[insert"), (H "TODO"), (H "FIXME"), (H "xxx"), (H "...");
      simpl; auto 10.
Qed.

Lemma fallback_object_audits `{RT : Runtime} (n : Z) (sa em : string) :
  check_consistency (fallback_object n sa em) = Returned (true, [])
  /\ enforce_grading_policies (fallback_object n sa em) = (true, []).
Proof.
  split; [reflexivity|].
  unfold enforce_grading_policies.
  cbn [error_type points_breakdown points_earned points_possible feedback
       data_references specific_errors fallback_object].
  rewrite fallback_feedback_length. reflexivity.
Qed.

Section WithRuntime.
Context `{RT : Runtime}.

(** X5. [validate_llm_response] answers valid exactly when the
    constructor accepts the response, the question number is the
    expected one, the points earned do not exceed the points possible,
    and the feedback holds none of the placeholder indicators; the
    result is then the constructed object and there is no message. *)
Theorem validate_llm_response_accepts
    (response : dict) (expected : pyval) (errors : list string)
    (result : option GradingResult) :
  validate_llm_response response expected = Returned (true, errors, result)
  <-> exists r : GradingResult,
        GradingResult_init response = Returned r
        /\ result = Some r /\ errors = []
        /\ py_eq_int expected (Schemas.question_number r) = true
        /\ fltb (of_Z (points_possible r)) (points_earned r) = false
        /\ no_placeholder (feedback r).
Proof.
  split.
  - intros H.
    destruct (GradingResult_init response) as [r|e] eqn:E.
    + rewrite (validate_llm_response_Returned _ _ _ E) in H. cbv zeta in H.
      injection H as Hok <- <-. exists r.
      apply is_empty_nil in Hok. rewrite Hok.
      apply app_eq_nil in Hok as [H1 Hok]. apply app_eq_nil in Hok as [H2 H3].
      repeat split; auto.
      * apply when_nil, negb_false_iff in H1. exact H1.
      * apply when_nil in H2. exact H2.
      * apply placeholder_errors_nil. exact H3.
    + unfold validate_llm_response in H. rewrite E in H.
      destruct e; discriminate H.
  - intros (r & E & -> & -> & Hq & Hp & Hf).
    rewrite (validate_llm_response_Returned _ _ _ E). cbv zeta.
    rewrite Hq, Hp. apply placeholder_errors_nil in Hf. rewrite Hf.
    reflexivity.
Qed.

(** Whatever [create_fallback_result] returns is the object it spells
    out, with the question number and the answer it was given. *)
Lemma fallback_shape (qn answer : pyval) (em : string) (r : GradingResult) :
  create_fallback_result qn answer em = Returned r ->
  r = fallback_object (Schemas.question_number r) (student_answer r) em.
Proof.
  unfold create_fallback_result. intros H. apply init_fields in H.
  destruct H as (C1 & C2 & C3 & C4 & C5 & C6 & C7 & C8 & C9 & C10 & C11 & C12).
  unfold field_points_earned, field_points_possible, field_is_correct,
    field_correct_answer, field_points_breakdown, field_error_type,
    field_specific_errors, field_what_was_correct, field_feedback,
    field_data_references, required, optional, typed in *.
  cbn [dict_get String.eqb Ascii.eqb Bool.eqb parse_answer] in *.
  change (VList []) with (VList (map VStr [])) in *.
  change (VList [VStr ?a]) with (VList (map VStr [a])) in *.
  change (VList [VStr ?a; VStr ?b; VStr ?c])
    with (VList (map VStr [a; b; c])) in *.
  rewrite ?validate_int_int, ?validate_float_float, ?validate_bool_bool,
    ?validate_str_str, ?validate_dict_dict, ?validate_str_list_list in *.
  cbn [and_then] in *.
  apply and_then_Good in C2 as (x & C2 & C2').
  apply float_range_Good in C2 as (-> & _).
  apply validate_points_Good in C2'.
  apply validate_breakdown_Good in C7 as (C7 & _).
  apply min_length_Good in C11 as (C11 & _).
  cbn [validate_error_type ErrorType_of_string String.eqb Ascii.eqb Bool.eqb]
    in C8.
  injection C3 as C3. injection C4 as C4. injection C6 as C6.
  injection C8 as C8. injection C9 as C9. injection C10 as C10.
  injection C12 as C12.
  destruct r. cbn in *. unfold fallback_object, fallback_feedback.
  congruence.
Qed.

(** X6. Every result that [create_fallback_result] returns, whatever the
    arguments, passes the two audits that graded results go through:
    [check_consistency] has no warning for it and
    [enforce_grading_policies] no violation. *)
Theorem create_fallback_result_passes_audits
    (question_number student_answer : pyval) (error_message : string)
    (r : GradingResult) :
  create_fallback_result question_number student_answer error_message
  = Returned r ->
  check_consistency r = Returned (true, [])
  /\ enforce_grading_policies r = (true, []).
Proof.
  intros H. rewrite (fallback_shape _ _ _ _ H). apply fallback_object_audits.
Qed.

(** X7. On a schema-valid result the policy on short feedback for wrong
    answers never fires, since the schema already asks for 50
    characters: the violations of [enforce_grading_policies] are those of
    the other three policies, in order (partial credit, data references,
    zero points). *)
Theorem enforce_grading_policies_on_valid (r : GradingResult) :
  schema_valid r = true ->
  snd (enforce_grading_policies r)
  = when (match error_type r with
          | Some wrong_calculation =>
              py_eq_int (dict_get_default "showing_work" (VInt 0)
                           (points_breakdown r)) 0
          | _ => false
          end) partial_credit_violation
    ++ when (match error_type r with
             | Some wrong_calculation | Some missing_data =>
                 is_empty (data_references r)
             | _ => false
             end) data_violation
    ++ when (feqb (points_earned r) (of_Z 0)
             && (length (specific_errors r) <? 2)%nat)
         zero_violation.
Proof.
  intros H. apply schema_valid_parts in H as (total & _ & _ & Hlen & _).
  unfold enforce_grading_policies. cbn [snd].
  replace (String.length (feedback r) <? 50)%nat with false
    by (symmetry; apply Nat.ltb_ge; exact Hlen).
  rewrite andb_false_r. reflexivity.
Qed.

End WithRuntime.

Lemma create_fallback_result_passes_audits_witness :
  @check_consistency Sample.runtime (fallback_object 3 "42" "timeout")
  = Returned (true, [])
  /\ enforce_grading_policies (fallback_object 3 "42" "timeout") = (true, []).
Proof.
  apply (@create_fallback_result_passes_audits Sample.runtime
           (VInt 3) (VStr "42") "timeout").
  reflexivity.
Defined.

Lemma enforce_grading_policies_on_valid_witness :
  snd (enforce_grading_policies warned_result)
  = [partial_credit_violation; data_violation].
Proof.
  apply (enforce_grading_policies_on_valid warned_result).
  reflexivity.
Defined.

End Audits.

(** ** Properties of [validate_and_grade] *)
Module Orchestrator.

Import Constructor Pipeline OutputGuard RateLimiter InputGuard Construction
  Audits.


Section WithRuntime.
Context `{RT : Runtime}.



Lemma fallback_returns (n : Z) (sa em : string) :
  1 <= n <= 10 ->
  create_fallback_result (VInt n) (VStr sa) em
  = Returned (fallback_object n sa em).
Proof.
  intros H. rewrite create_fallback_result_spec.
  replace (n <? 1) with false by (symmetry; apply Z.ltb_ge; lia).
  replace (10 <? n) with false by (symmetry; apply Z.ltb_ge; lia).
  reflexivity.
Qed.





Lemma validate_student_submission_pair (submission : dict) :
  validate_student_submission submission
  = (is_empty (snd (validate_student_submission submission)),
     snd (validate_student_submission submission)).
Proof. reflexivity. Qed.

(** X11. For a submission whose question number is an integer from 1 to
    10 and whose answer, if any, is a string, [validate_and_grade]
    returns its triple and raises nothing, whatever the response, the
    history and the submitter id are. *)
Theorem validate_and_grade_returns (h : history) (now now' : datetime)
    (submission response : dict) (sid : option string) :
  well_typed submission ->
  exists (ok : bool) (r : GradingResult) (msgs : list string),
    snd (validate_and_grade h now now' submission response sid)
    = Returned (ok, r, msgs).
Proof.
  intros [(n & Hq & Hn) Ha]. unfold validate_and_grade.
  destruct (rate_limit_step h now now' sid) as [h1 [msg|]]; cbn [snd].
  - unfold dict_get_default at 1. rewrite Hq, fallback_returns by exact Hn.
    cbn [bind]. eauto.
  - rewrite validate_student_submission_pair.
    destruct (is_empty (snd (validate_student_submission submission))) eqn:Ev;
      cbn [negb].
    + unfold getitem at 1. rewrite Hq. cbn [bind].
      destruct (validate_llm_response_total response (VInt n))
        as (ok' & errs & res & E & Hnone & Hok).
      rewrite E. cbn [bind].
      assert (Hans : exists a,
                dict_get "student_answer" submission = Some (VStr a)).
      { assert (Hacc : fst (validate_student_submission submission) = true)
          by exact Ev.
        unfold validate_student_submission in Hacc. cbn [fst] in Hacc.
        destruct (dict_get "student_answer" submission) as [v|] eqn:Es.
        - destruct (Ha v eq_refl) as [a ->]. eauto.
        - rewrite Hq in Hacc. cbn in Hacc. discriminate Hacc. }
      destruct Hans as [a Hans].
      assert (Hfail : errs <> [] ->
                exists ok r msgs,
                  bind (getitem "question_number" submission) (fun qnum0 =>
                  bind (getitem "student_answer" submission) (fun answer =>
                  bind (first errs) (fun err0 =>
                  bind (create_fallback_result qnum0 answer
                          ("Invalid LLM response: " +:+ err0))
                       (fun fallback =>
                          Returned (false, fallback,
                            [check_mark +:+ " Input validation passed"]
                            ++ map (fun err =>
                                      cross_mark +:+ " Output: " +:+ err)
                                 errs)))))
                  = Returned (ok, r, msgs)).
      { intros Hne. unfold getitem. rewrite Hq, Hans. cbn [bind].
        destruct errs as [|e0 es]; [contradiction|]. cbn [first bind].
        rewrite fallback_returns by exact Hn. cbn [bind]. eauto. }
      destruct ok'.
      * destruct (Hok eq_refl) as (_ & r' & -> & Hr').
        destruct (check_consistency_returns r' (init_schema_valid _ _ Hr'))
          as (ws & ->).
        cbn [bind]. destruct (enforce_grading_policies r'). eauto.
      * assert (Hne : errs <> []).
        { destruct res as [r'|].
          - destruct (GradingResult_init response) as [r''|e] eqn:Ei.
            + rewrite (validate_llm_response_Returned _ _ _ Ei) in E.
              cbv zeta in E. injection E as Hemp <- _.
              intros Hnil. rewrite Hnil in Hemp. discriminate Hemp.
            + unfold validate_llm_response in E. rewrite Ei in E.
              destruct e; discriminate E.
          - destruct (Hnone eq_refl) as (_ & e & ->). discriminate. }
        destruct res; apply (Hfail Hne).
    + apply is_empty_false in Ev as (e0 & es & ->). cbn [first bind].
      unfold dict_get_default at 1. rewrite Hq, fallback_returns by exact Hn.
      cbn [bind]. eauto.
Qed.

End WithRuntime.



Lemma validate_and_grade_returns_witness :
  exists (ok : bool) (r : GradingResult) (msgs : list string),
    snd (@validate_and_grade Sample.runtime ∅ 0 0 test_submission
           mismatch_response None)
    = Returned (ok, r, msgs).
Proof.
  apply (@validate_and_grade_returns Sample.runtime ∅ 0 0 test_submission
           mismatch_response None).
  split.
  - exists 1. split; [reflexivity|lia].
  - intros v [= <-]. eauto.
Defined.

End Orchestrator.

(** ** The rate limiter over successive checks *)
Module Window.

Import RateLimiter.







End Window.

(** ** The retry policy and the check of grade inflation *)
Module Retry.

Lemma str_in_In (e : string) (l : list string) : str_in e l = true <-> In e l.
Proof.
  unfold str_in. rewrite existsb_exists. split.
  - intros (x & Hx & E). apply String.eqb_eq in E. subst. exact Hx.
  - intros H. exists e. split; [exact H|apply String.eqb_refl].
Qed.

Lemma should_retry_iff (attempt : Z) (error_type : string) (max_retries : Z) :
  should_retry attempt error_type max_retries = true
  <-> attempt < max_retries /\ In error_type retryable.
Proof.
  unfold should_retry.
  destruct (str_in error_type ["validation_error"; "invalid_input"]) eqn:E1.
  - split; [discriminate|]. intros [_ H]. apply str_in_In in E1.
    unfold retryable in H. simpl in H, E1.
    decompose [or] H; decompose [or] E1; subst; try contradiction;
      discriminate.
  - destruct (Z.leb_spec max_retries attempt).
    + split; [discriminate|]. intros [? _]. lia.
    + fold retryable. rewrite str_in_In. split; [auto|tauto].
Qed.

(** X13. [should_retry] says yes exactly when the attempt number is below
    the maximum and the error type is one of the four transient ones;
    validation errors, invalid input and unknown error types are never
    retried; and a yes stays a yes for an earlier attempt or a larger
    maximum. *)
Theorem should_retry_decision :
  (forall (attempt : Z) (error_type : string) (max_retries : Z),
     should_retry attempt error_type max_retries = true
     <-> attempt < max_retries /\ In error_type retryable)
  /\ (forall (attempt attempt' : Z) (error_type : string)
        (max_retries max_retries' : Z),
        should_retry attempt error_type max_retries = true ->
        attempt' <= attempt -> max_retries <= max_retries' ->
        should_retry attempt' error_type max_retries' = true).
Proof.
  split; [exact should_retry_iff|].
  intros a a' e m m' H Ha Hm. apply should_retry_iff in H as [H He].
  apply should_retry_iff. split; [lia|exact He].
Qed.

End Retry.

Module Inflation.

Lemma fdiv_int_Some (x : pyfloat) (n : Z) :
  n <> 0 -> exists y, fdiv_int x n = Some y.
Proof.
  intros H. unfold fdiv_int. destruct (Z.eqb_spec n 0); [contradiction|eauto].
Qed.

(** A sum of floats that are each at most [c] is at most [c] times their
    number. *)
Lemma fold_at_most (c : Q) (l : list pyfloat) :
  Forall (fun x => fleb x (Fin c) = true) l ->
  forall (acc : pyfloat) (k : nat),
    at_most (c * inject_Z (Z.of_nat k)) acc ->
    at_most (c * inject_Z (Z.of_nat (k + length l))) (fold_left fadd l acc).
Proof.
  induction 1 as [|x l Hx _ IH]; intros acc k Hacc; simpl.
  - rewrite Nat.add_0_r. exact Hacc.
  - replace (k + S (length l))%nat with (S k + length l)%nat by lia.
    apply IH.
    destruct acc as [q| | |]; destruct x as [y| | |]; simpl in *;
      try discriminate; try contradiction; try exact I.
    apply Qle_bool_iff in Hx.
    rewrite Nat2Z.inj_succ, <- Z.add_1_r, inject_Z_plus.
    set (z := inject_Z (Z.of_nat k)) in *. change (inject_Z 1) with 1%Q.
    nra.
Qed.

Section WithFormatting.
Context `{FM : Formatting}.

(** X14. [check_grade_inflation] divides by the number of results only
    after its early return for an empty list, so it always returns; the
    empty list is acceptable with the message 'No results to check', and
    so is every list of at most three results, whatever the scores. *)
Theorem check_grade_inflation_few_results (results : list GradingResult) :
  (exists (ok : bool) (msg : string),
     check_grade_inflation results = Some (ok, msg))
  /\ (results = [] ->
      check_grade_inflation results = Some (true, "No results to check"))
  /\ ((length results <= 3)%nat ->
      exists msg : string, check_grade_inflation results = Some (true, msg)).
Proof.
  unfold check_grade_inflation. cbv zeta.
  destruct (Z.eqb_spec (Z.of_nat (length results)) 0) as [E|E].
  - repeat split; eauto.
  - destruct (fdiv_int_Some
                (value_of (sum_floats (map points_earned results))) _ E)
      as [avg ->].
    destruct (fdiv_int_Some
                (of_Z (Z.of_nat
                         (length (filter (fun r => perfect r = true) results))))
                _ E) as [rate ->].
    repeat split.
    + destruct (_ && _); [eauto|]. destruct (_ && _); eauto.
    + intros ->. simpl in E. contradiction.
    + intros Hl.
      replace (3 <? Z.of_nat (length results)) with false
        by (symmetry; apply Z.ltb_ge; lia).
      replace (5 <? Z.of_nat (length results)) with false
        by (symmetry; apply Z.ltb_ge; lia).
      rewrite !andb_false_r. eauto.
Qed.

(** X15. Up to five results none of which has more than 9.5 points are
    acceptable: the average cannot exceed 9.5, and the test on the rate
    of perfect scores needs more than five results. *)
Theorem check_grade_inflation_low_scores (results : list GradingResult) :
  Forall (fun r => fleb (points_earned r) float_9_5 = true) results ->
  (length results <= 5)%nat ->
  exists msg : string, check_grade_inflation results = Some (true, msg).
Proof.
  intros Hall Hlen. unfold check_grade_inflation. cbv zeta.
  destruct (Z.eqb_spec (Z.of_nat (length results)) 0) as [E|E]; [eauto|].
  destruct (fdiv_int_Some
              (of_Z (Z.of_nat
                       (length (filter (fun r => perfect r = true) results))))
              _ E) as [rate ->].
  replace (5 <? Z.of_nat (length results)) with false
    by (symmetry; apply Z.ltb_ge; lia).
  rewrite andb_false_r.
  assert (Hb : at_most ((19 # 2) * inject_Z (Z.of_nat (length results)))
                 (value_of (sum_floats (map points_earned results)))).
  { destruct results as [|r rs]; [simpl in E; contradiction|].
    unfold sum_floats. cbn [value_of num_value].
    change (map points_earned (r :: rs))
      with (points_earned r :: map points_earned rs) at 1.
    cbn iota. cbn [value_of num_value].
    replace (length (r :: rs))
      with (0 + length (map points_earned (r :: rs)))%nat
      by (rewrite length_map; reflexivity).
    apply fold_at_most.
    - apply List.Forall_map. exact Hall.
    - unfold at_most, of_Z, Qle. simpl. lia. }
  unfold fdiv_int.
  destruct (Z.eqb_spec (Z.of_nat (length results)) 0); [contradiction|].
  assert (Hpos : (0 < inject_Z (Z.of_nat (length results)))%Q).
  { rewrite <- (Zlt_Qlt 0). lia. }
  destruct (value_of (sum_floats (map points_earned results)))
    as [q| | |]; try contradiction.
  - replace (fltb float_9_5
               (Fin (q / inject_Z (Z.of_nat (length results)))))
      with false; [eauto|].
    symmetry. unfold fltb, float_9_5, Qltb.
    apply negb_false_iff, Qle_bool_iff.
    apply Qle_shift_div_r; [exact Hpos|]. unfold at_most in Hb. lra.
  - replace (0 <? Z.of_nat (length results)) with true
      by (symmetry; apply Z.ltb_lt; lia).
    simpl. eauto.
Qed.

(** X16. Six or more results that all have full marks are reported as
    possible grade inflation. *)
Theorem check_grade_inflation_all_perfect (results : list GradingResult) :
  Forall (fun r => perfect r = true) results ->
  (6 <= length results)%nat ->
  exists msg : string, check_grade_inflation results = Some (false, msg).
Proof.
  intros Hall Hlen. unfold check_grade_inflation. cbv zeta.
  destruct (Z.eqb_spec (Z.of_nat (length results)) 0) as [E|E]; [lia|].
  destruct (fdiv_int_Some
              (value_of (sum_floats (map points_earned results))) _ E)
    as [avg ->].
  replace (filter (fun r => perfect r = true) results) with results.
  2:{ symmetry. clear -Hall. induction Hall as [|r l Hr _ IH]; [reflexivity|].
      rewrite filter_cons_True by exact Hr. f_equal. exact IH. }
  unfold fdiv_int.
  destruct (Z.eqb_spec (Z.of_nat (length results)) 0); [contradiction|].
  destruct (_ && _); [eauto|].
  replace (5 <? Z.of_nat (length results)) with true
    by (symmetry; apply Z.ltb_lt; lia).
  set (k := Z.of_nat (length results)) in *.
  assert (Hr : fltb float_0_8 (Fin (inject_Z k / inject_Z k)) = true).
  { unfold fltb, float_0_8, Qltb. apply negb_true_iff.
    destruct (Qle_bool _ _) eqn:L; [|reflexivity].
    apply Qle_bool_iff in L.
    assert (Hone : (inject_Z k / inject_Z k == 1)%Q).
    { apply Qmult_inv_r. intros Hz. apply E.
      unfold Qeq in Hz. simpl in Hz. lia. }
    rewrite Hone in L. vm_compute in L. exfalso. apply L. reflexivity. }
  unfold of_Z. rewrite Hr. simpl. eauto.
Qed.

End WithFormatting.

Lemma check_grade_inflation_low_scores_witness :
  exists msg : string,
    @check_grade_inflation SampleFormatting.formatting
      [test_result; minimal_result; warned_result]
    = Some (true, msg).
Proof.
  apply (@check_grade_inflation_low_scores SampleFormatting.formatting
           [test_result; minimal_result; warned_result]).
  - repeat constructor.
  - simpl. lia.
Defined.

Lemma check_grade_inflation_all_perfect_witness :
  exists msg : string,
    @check_grade_inflation SampleFormatting.formatting
      (replicate 6 full_marks)
    = Some (false, msg).
Proof.
  apply (@check_grade_inflation_all_perfect SampleFormatting.formatting
           (replicate 6 full_marks)).
  - repeat constructor.
  - simpl. lia.
Defined.

End Inflation.

(** ** Properties of [get_percentage] and of [ExamGradingReport] *)
Module ExamReport.

Import Constructor Pipeline Inflation.




Section WithRuntime.
Context `{RT : Runtime}.

(** The fields of a returned report that have constraints or
    validators. *)
Lemma report_fields (kwargs : dict) (results : option (list GradingResult))
    (r : ExamGradingReport) :
  ExamGradingReport_init kwargs results = Returned r ->
  results = Some (question_results r)
  /\ min_items 1 (question_results r) = Good (question_results r)
  /\ required "total_points_earned" kwargs (fun v =>
       and_then (and_then (typed validate_float v) (float_ge 0))
         (fun x => validate_total_points x (Some (question_results r))))
     = Good (total_points_earned r)
  /\ required "total_points_possible" kwargs (fun v =>
       and_then (typed validate_int v) (int_ge 1))
     = Good (total_points_possible r)
  /\ required "overall_percentage" kwargs (fun v =>
       and_then (typed validate_float v) (float_range 0 100))
     = Good (overall_percentage r)
  /\ required "letter_grade" kwargs (fun v =>
       and_then (validate_literal_grade v)
         (fun s => validate_letter_grade s (Some (overall_percentage r))))
     = Good (letter_grade r)
  /\ required "overall_feedback" kwargs (fun v =>
       and_then (typed validate_str v) (min_length 100))
     = Good (overall_feedback r).
Proof.
  unfold ExamGradingReport_init. cbv zeta.
  destruct (required "student_name" _ _) as [sn|] eqn:E1; [|discriminate].
  destruct (required "exam_date" _ _) as [ed|] eqn:E2; [|discriminate].
  destruct results as [l|]; [|discriminate].
  destruct (min_items 1 l) as [qr|] eqn:E3; [|discriminate].
  cbn [checked_value].
  destruct (required "total_points_earned" _ _) as [te|] eqn:E4;
    [|discriminate].
  destruct (required "total_points_possible" _ _) as [tp|] eqn:E5;
    [|discriminate].
  destruct (required "overall_percentage" _ _) as [op|] eqn:E6;
    [|discriminate].
  cbn [checked_value].
  destruct (required "letter_grade" _ _) as [lg|] eqn:E7; [|discriminate].
  destruct (optional "strengths" _ _ _) as [st|]; [|discriminate].
  destruct (optional "areas_for_improvement" _ _ _) as [ai|]; [|discriminate].
  destruct (required "overall_feedback" _ _) as [fb|] eqn:E10; [|discriminate].
  destruct (required "grading_timestamp" _ _) as [ts|]; [|discriminate].
  intros [= <-]. cbn.
  assert (qr = l) as ->.
  { unfold min_items in E3. destruct (_ <? _)%nat; [discriminate|]. congruence. }
  repeat split; assumption.
Qed.

Lemma report_has_questions (kwargs : dict)
    (results : option (list GradingResult)) (r : ExamGradingReport) :
  ExamGradingReport_init kwargs results = Returned r ->
  question_results r <> []
  /\ letter_grade r = calculate_letter_grade (overall_percentage r).
Proof.
  intros H. apply report_fields in H.
  destruct H as (_ & H3 & _ & _ & _ & H7 & _). split.
  - unfold min_items in H3. destruct (question_results r); discriminate.
  - apply required_Good in H7 as (v7 & _ & H7).
    apply and_then_Good in H7 as (x7 & _ & H7).
    unfold validate_letter_grade in H7. cbv zeta in H7.
    destruct (String.eqb x7 _) eqn:Q; [|discriminate].
    cbn in H7. injection H7 as E7. rewrite <- E7.
    apply String.eqb_eq in Q. exact Q.
Qed.


(** X19. On every report that the constructor returns,
    [get_summary_stats] returns its five entries and raises no
    [ZeroDivisionError]: there is at least one question, the number of
    correct ones is between 0 and the number of questions, and the grade
    is the one of [calculate_letter_grade] for the percentage. *)
Theorem get_summary_stats_of_report (kwargs : dict)
    (results : option (list GradingResult)) (r : ExamGradingReport) :
  ExamGradingReport_init kwargs results = Returned r ->
  exists (average : pyfloat) (correct : Z),
    get_summary_stats r
    = Some [ ("total_questions",
               VInt (Z.of_nat (length (question_results r))));
             ("questions_correct", VInt correct);
             ("average_points_per_question", VFloat average);
             ("percentage", VFloat (overall_percentage r));
             ("grade",
               VStr (calculate_letter_grade (overall_percentage r))) ]
    /\ 0 <= correct <= Z.of_nat (length (question_results r))
    /\ 1 <= Z.of_nat (length (question_results r)).
Proof.
  intros H. apply report_has_questions in H as [Hne Hgrade].
  unfold get_summary_stats.
  assert (Hn : Z.of_nat (length (question_results r)) <> 0).
  { destruct (question_results r); [contradiction|]. simpl. lia. }
  destruct (fdiv_int_Some (total_points_earned r) _ Hn) as [average ->].
  exists average. eexists. rewrite Hgrade. split; [reflexivity|].
  pose proof (length_filter (fun q => is_correct q = true)
                (question_results r)) as Hf.
  lia.
Qed.

(** X20. Keyword arguments whose [overall_feedback] is a string of fewer
    than 100 characters are refused by the constructor of
    [ExamGradingReport] with a validation error that names the field,
    whatever the other arguments; the report of the self-test at the end
    of [schemas.py] is such a one. *)
Theorem ExamGradingReport_init_short_feedback (kwargs : dict)
    (results : option (list GradingResult)) (text : string) :
  dict_get "overall_feedback" kwargs = Some (VStr text) ->
  (String.length text < 100)%nat ->
  exists errors : list (string * field_error),
    ExamGradingReport_init kwargs results = Raised (ValidationError errors)
    /\ In ("overall_feedback", MinLength 100) errors.
Proof.
  intros Hget Hlen.
  assert (F : required "overall_feedback" kwargs (fun v =>
                and_then (typed validate_str v) (min_length 100))
              = Bad (MinLength 100)).
  { unfold required, typed. rewrite Hget, validate_str_str. cbn [and_then].
    unfold min_length.
    replace (String.length text <? 100)%nat with true
      by (symmetry; apply Nat.ltb_lt; exact Hlen).
    reflexivity. }
  assert (G : match ExamGradingReport_init kwargs results with
              | Raised (ValidationError errors) =>
                  In ("overall_feedback", MinLength 100) errors
              | _ => False
              end).
  { unfold ExamGradingReport_init. cbv zeta. rewrite F.
    assert (Hin : forall a b c d e f g h i j : list (string * field_error),
              In ("overall_feedback", MinLength 100)
                (a ++ b ++ c ++ d ++ e ++ f ++ g ++ h ++ i
                 ++ entry "overall_feedback"
                      (@Bad string (MinLength 100)) ++ j)).
    { intros. rewrite !in_app_iff. simpl. auto 20. }
    destruct (required "student_name" _ _); [|apply Hin].
    destruct (required "exam_date" _ _); [|apply Hin].
    destruct (match results with Some l => min_items 1 l | None => Bad Missing end);
      [|destruct (required "total_points_earned" _ _); apply Hin].
    destruct (required "total_points_earned" _ _); [|apply Hin].
    destruct (required "total_points_possible" _ _); [|apply Hin].
    destruct (required "overall_percentage" _ _);
      [|destruct (required "letter_grade" _ _); apply Hin].
    destruct (required "letter_grade" _ _); [|apply Hin].
    destruct (optional "strengths" _ _ _); [|apply Hin].
    destruct (optional "areas_for_improvement" _ _ _); apply Hin. }
  destruct (ExamGradingReport_init kwargs results) as [r|[errors| | |]];
    try contradiction.
  exists errors. split; [reflexivity|exact G].
Qed.

End WithRuntime.


Lemma get_summary_stats_of_report_witness :
  exists (average : pyfloat) (correct : Z),
    get_summary_stats accepted_report_object
    = Some [ ("total_questions", VInt 1);
             ("questions_correct", VInt correct);
             ("average_points_per_question", VFloat average);
             ("percentage", VFloat (of_Z 70));
             ("grade", VStr "C-") ]
    /\ 0 <= correct <= 1
    /\ 1 <= 1.
Proof.
  apply (@get_summary_stats_of_report Sample.runtime accepted_report
           (Some [test_result]) accepted_report_object).
  reflexivity.
Defined.

Lemma ExamGradingReport_init_short_feedback_witness :
  exists errors : list (string * field_error),
    @ExamGradingReport_init Sample.runtime example_report (Some [test_result])
    = Raised (ValidationError errors)
    /\ In ("overall_feedback", MinLength 100) errors.
Proof.
  apply (@ExamGradingReport_init_short_feedback Sample.runtime example_report
           (Some [test_result])
           "Good understanding of concepts, but need to be more thorough with data...").
  - reflexivity.
  - vm_compute. lia.
Defined.

End ExamReport.

(** ** Properties of [create_exam_report] *)
Module CrewReport.

Import Inflation ExamReport.




Section WithRuntime.
Context `{RT : Runtime} `{FM : Formatting}.



End WithRuntime.



End CrewReport.

(** ** Properties of [map_question_to_dataset] *)
Module Datasets.

Lemma has_question_numbered (n : Z) (questions : list pyval) :
  forallb numbered questions = true ->
  has_question n questions = Returned (existsb (is_question n) questions).
Proof.
  induction questions as [|q qs IH]; [reflexivity|].
  cbn [forallb existsb has_question]. rewrite andb_true_iff. intros [Hq Hqs].
  unfold numbered in Hq. unfold is_question at 1.
  destruct (subscript q "question_number") as [v|]; [|discriminate].
  cbn [bind]. destruct (py_eq_int v n); [reflexivity|]. cbn [orb].
  apply IH. exact Hqs.
Qed.

Lemma find_dataset_well_formed (n : Z) (sections : list pyval) :
  forallb well_formed_section sections = true ->
  find_dataset n sections
  = match List.find (lists_question n) sections with
    | Some section => subscript section "dataset"
    | None => Returned (VStr "unknown.csv")
    end.
Proof.
  induction sections as [|s ss IH]; [reflexivity|].
  cbn [forallb find_dataset List.find]. rewrite andb_true_iff.
  intros [Hs Hss].
  unfold well_formed_section in Hs. unfold lists_question at 1.
  destruct (subscript s "questions") as [[| | | | |qs|]|]; try discriminate.
  destruct (subscript s "dataset") as [d|] eqn:D; [|discriminate].
  cbn [bind py_iter]. rewrite (has_question_numbered n qs Hs). cbn [bind].
  destruct (existsb (is_question n) qs); [congruence|]. apply IH. exact Hss.
Qed.

(** X24. On test data whose sections each have a dataset and a list of
    numbered questions, [map_question_to_dataset] raises nothing and
    returns the dataset of the first section that lists the question
    number, and 'unknown.csv' when no section lists it. *)
Theorem map_question_to_dataset_first_match (question_number : Z)
    (test_data : pyval) (sections : list pyval) :
  subscript test_data "sections" = Returned (VList sections) ->
  forallb well_formed_section sections = true ->
  (forall section : pyval,
     List.find (lists_question question_number) sections = Some section ->
     exists dataset : pyval,
       subscript section "dataset" = Returned dataset
       /\ map_question_to_dataset question_number test_data
          = Returned dataset)
  /\ (List.find (lists_question question_number) sections = None ->
      map_question_to_dataset question_number test_data
      = Returned (VStr "unknown.csv")).
Proof.
  intros Hs Hwf. unfold map_question_to_dataset. rewrite Hs.
  cbn [bind py_iter].
  rewrite (find_dataset_well_formed _ _ Hwf). split.
  - intros section Hf. rewrite Hf.
    apply find_some in Hf as [Hin _].
    rewrite forallb_forall in Hwf. specialize (Hwf _ Hin).
    unfold well_formed_section in Hwf.
    destruct (subscript section "questions") as [[| | | | |qs|]|];
      try discriminate.
    destruct (subscript section "dataset") as [d|]; [eauto|discriminate].
  - intros ->. reflexivity.
Qed.

Lemma map_question_to_dataset_first_match_witness :
  map_question_to_dataset 3 sample_test_data
  = Returned (VStr "customer_reviews.csv")
  /\ map_question_to_dataset 7 sample_test_data
     = Returned (VStr "unknown.csv").
Proof.
  destruct (map_question_to_dataset_first_match 3 sample_test_data
              _ eq_refl eq_refl) as [H3 _].
  destruct (map_question_to_dataset_first_match 7 sample_test_data
              _ eq_refl eq_refl) as [_ H7].
  split.
  - destruct (H3 _ eq_refl) as (d & Hd & Hm).
    injection Hd as <-. exact Hm.
  - apply H7. reflexivity.
Defined.

End Datasets.
